(** * Voxel adjacency calculator

    A shallow embedding of the second script of [rhino_highlighter.py]
    ("voxel to voxel relationship calculator"): the collection of voxels
    from the Rhino document, the pairwise neighbour loop of
    [calculate_neighbors], the direction classifier [determine_direction],
    the CSV export and the closing summary; and of the class
    [VoxelHighlighter] of its first part (module [VoxelHighlighter]).

    The script computes on Python floats, which are IEEE binary64.  Its
    text is embedded once, over an interface [PyFloat] of the float
    operations it uses:
    - statements about the control flow (which pairs are visited, which
      records are registered, what is printed and exported, when the run
      aborts) are proved for every instance of the interface, hence
      whatever the powers [**] return;
    - statements about the arithmetic itself (the classifier, symmetry)
      are proved on binary64, with the sum, difference, quotient and
      comparisons of IEEE 754 and with libm's [pow] as a parameter;
    - the scenarios of the specification and the concrete documents are
      run on binary64 with a correctly rounded [pow].
    Nothing is stated in exact (real) arithmetic: where a claim speaks of
    the exact distance, the exact value of a float is a rational number
    (module [Exact]).

    The host (rhinoscriptsyntax) is input: a document gives the objects of
    each layer, with the user text and the bounding box of each object.
    Printed lines, the CSV file and the message box are outputs. *)

From Stdlib Require Import List String Ascii Bool Arith ZArith Lia.
From Stdlib Require Import Floats.
From Stdlib Require Import QArith.
Import ListNotations.

Close Scope Q_scope.

Set Warnings "-inexact-float".

Local Open Scope string_scope.
Local Open Scope list_scope.

(** * The script *)

(** ** The float operations of the script

    [a ** 2] is the one operation of the script that can raise: CPython
    raises OverflowError when the power of a finite float is infinite.
    [overflows a] tells that it does; [fsquare a] is the power when it
    does not.  The sum of three squares is not negative, so [** 0.5]
    returns a float. *)

Class PyFloat (num : Type) : Type := {
  of_int : Z -> num;           (* an int where a float is expected *)
  fadd : num -> num -> num;    (* a + b *)
  fsub : num -> num -> num;    (* a - b *)
  fdiv : num -> num -> num;    (* a / b *)
  fsquare : num -> num;        (* a ** 2, when it returns *)
  overflows : num -> bool;     (* a ** 2 raises OverflowError *)
  froot : num -> num;          (* a ** 0.5 *)
  fabs : num -> num;           (* abs(a) *)
  feq : num -> num -> bool;    (* a == b *)
  flt : num -> num -> bool;    (* a < b; [a > b] is [flt b a] *)
  fle : num -> num -> bool;    (* a <= b *)
  fround3 : num -> num         (* round(a, 3) *)
}.

Section Script.

Context {num : Type} `{PyFloat num}.

(** The decimal literals of the script: [2.0], [0.7] and [1.5]. *)
Definition lit_2_0 : num := of_int 2.
Definition lit_0_7 : num := fdiv (of_int 7) (of_int 10).
Definition ADJACENCY_THRESHOLD : num := fdiv (of_int 3) (of_int 2).

(** [a > b] *)
Definition fgt (a b : num) : bool := flt b a.

(** ** The host document, as the script reads it through rhinoscriptsyntax *)

Record Point3d : Type := { pt_X : num; pt_Y : num; pt_Z : num }.

(** A Rhino object: its guid, what [rs.GetUserText(obj, "voxel_id")]
    returns and what [rs.BoundingBox(obj)] returns ([None] is Python's
    None). *)
Record RhinoObject : Type := {
  obj_guid : nat;
  GetUserText_voxel_id : option string;
  BoundingBox : option (list Point3d)
}.

(** [rs.ObjectsByLayer]: the objects of a layer, by layer name. *)
Definition Document : Type := string -> list RhinoObject.

(** The dict appended to [all_voxels]. *)
Record Voxel : Type := {
  voxel_id : string;
  guid : nat;
  vx : num;
  vy : num;
  vz : num
}.

(** ** Printed output

    A printed line is the sequence of the pieces of its f-string. *)
Inductive Piece : Type :=
| Text (s : string)
| Int (n : nat)            (* {n} *)
| IntComma (n : nat)       (* {n:,} *)
| Float (a : num)          (* {a} *)
| Float1f (a : num).       (* {a:.1f} *)

Definition Line : Type := list Piece.

(** The newline character of ["\n"]. *)
Definition LF : string := String (ascii_of_nat 10) EmptyString.

(** ** Relationship dicts and the CSV file

    csv.DictWriter reads the dicts by key, so the keys are kept as data:
    a dict is the list of its items in insertion order. *)
Inductive PyVal : Type :=
| PStr (s : string)
| PNum (a : num).

Definition PyDict : Type := list (string * PyVal).

Fixpoint dict_get (d : PyDict) (key : string) : option PyVal :=
  match d with
  | [] => None
  | (k, v) :: rest => if String.eqb k key then Some v else dict_get rest key
  end.

Definition dict_keys (d : PyDict) : list string := map fst d.

(** ** STEP 1: collecting the voxels *)

Definition layers : list string := ["Layer 01"; "Layer 02"; "Layer 03"; "Layer 04"].

(** The body of [for obj in objects]: the voxel appended for [obj], if any.
    [if not voxel_id: continue] skips None and the empty string;
    [if bbox and len(bbox) >= 7] skips None and short boxes. *)
Definition voxel_of_object (obj : RhinoObject) : option Voxel :=
  match GetUserText_voxel_id obj with
  | None => None
  | Some EmptyString => None
  | Some id =>
      match BoundingBox obj with
      | None => None
      | Some bbox =>
          if (7 <=? List.length bbox)%nat then
            match nth_error bbox 0, nth_error bbox 6 with
            | Some b0, Some b6 =>
                let cx := fdiv (fadd (pt_X b0) (pt_X b6)) lit_2_0 in
                let cy := fdiv (fadd (pt_Y b0) (pt_Y b6)) lit_2_0 in
                let cz := fdiv (fadd (pt_Z b0) (pt_Z b6)) lit_2_0 in
                Some {| voxel_id := id; guid := obj_guid obj;
                        vx := cx; vy := cy; vz := cz |}
            | _, _ => None
            end
          else None
      end
  end.

Fixpoint collect_objects (objects : list RhinoObject) (all_voxels : list Voxel)
  : list Voxel :=
  match objects with
  | [] => all_voxels
  | obj :: rest =>
      match voxel_of_object obj with
      | Some v => collect_objects rest (all_voxels ++ [v])
      | None => collect_objects rest all_voxels
      end
  end.

(** The loop over the four layers, threading [all_voxels] and the printed
    lines. *)
Fixpoint collect_layers (doc : Document) (ls : list string)
    (all_voxels : list Voxel) (stdout : list Line) : list Voxel * list Line :=
  match ls with
  | [] => (all_voxels, stdout)
  | layer :: rest =>
      let objects := doc layer in
      match objects with
      | [] => collect_layers doc rest all_voxels stdout
      | _ :: _ =>
          let stdout := stdout ++
            [[Text "  "; Text layer; Text ": "; Int (List.length objects); Text " voxels"]] in
          collect_layers doc rest (collect_objects objects all_voxels) stdout
      end
  end.

Definition collect_voxels (doc : Document) (stdout : list Line)
  : list Voxel * list Line :=
  let stdout := stdout ++ [[Text LF; Text "[STEP 1] Collecting all voxels from all layers..."]] in
  let '(all_voxels, stdout) := collect_layers doc layers [] stdout in
  (all_voxels,
   stdout ++ [[Text LF; Text "  Total voxels collected: "; Int (List.length all_voxels)]]).

(** ** The direction classifier *)

Definition determine_direction (dx dy dz distance : num) : string :=
  if feq distance (of_int 0) then "same"
  else
    let dx_norm := fdiv (fabs dx) distance in
    let dy_norm := fdiv (fabs dy) distance in
    let dz_norm := fdiv (fabs dz) distance in
    if fgt dz_norm lit_0_7 then
      (if fgt dz (of_int 0) then "above" else "below")
    else if fgt dx_norm dy_norm then
      (if fgt dx (of_int 0) then "east" else "west")
    else
      (if fgt dy (of_int 0) then "north" else "south").

(** ** STEP 2: the pairwise loop *)

(** [dx**2] raises OverflowError when the power is out of range.  The
    exception leaves the two loops and [calculate_neighbors]: nothing is
    returned ([None]), and the lines printed until then stay printed. *)

(** [a ** 2]: the power, [None] when it raises. *)
Definition power_2 (a : num) : option num :=
  if overflows a then None else Some (fsquare a).

(** [(dx**2 + dy**2 + dz**2)**0.5], the powers taken from left to
    right. *)
Definition distance_or_raise (dx dy dz : num) : option num :=
  match power_2 dx with
  | None => None
  | Some sx =>
      match power_2 dy with
      | None => None
      | Some sy =>
          match power_2 dz with
          | None => None
          | Some sz => Some (froot (fadd (fadd sx sy) sz))
          end
      end
  end.

(** [for j, other in enumerate(all_voxels)], from index [j] on. *)
Fixpoint inner_loop_or_raise (i : nat) (voxel : Voxel) (j : nat) (others : list Voxel)
    (neighbor_relationships : list PyDict) : option (list PyDict) :=
  match others with
  | [] => Some neighbor_relationships
  | other :: rest =>
      if (i =? j)%nat then inner_loop_or_raise i voxel (S j) rest neighbor_relationships
      else
        let dx := fsub (vx other) (vx voxel) in
        let dy := fsub (vy other) (vy voxel) in
        let dz := fsub (vz other) (vz voxel) in
        match distance_or_raise dx dy dz with
        | None => None
        | Some distance =>
            if fle distance ADJACENCY_THRESHOLD then
              let direction := determine_direction dx dy dz distance in
              inner_loop_or_raise i voxel (S j) rest
                (neighbor_relationships ++
                   [[("from_voxel", PStr (voxel_id voxel));
                     ("to_voxel", PStr (voxel_id other));
                     ("direction", PStr direction);
                     ("distance", PNum (fround3 distance))]])
            else inner_loop_or_raise i voxel (S j) rest neighbor_relationships
        end
  end.

(** [for i, voxel in enumerate(all_voxels)], from index [i] on. *)
Fixpoint outer_loop_or_raise (all_voxels : list Voxel) (i : nat) (voxels : list Voxel)
    (neighbor_relationships : list PyDict) (stdout : list Line)
  : option (list PyDict) * list Line :=
  match voxels with
  | [] => (Some neighbor_relationships, stdout)
  | voxel :: rest =>
      let stdout :=
        if ((i + 1) mod 1000 =? 0)%nat then
          stdout ++ [[Text "    Processed "; Int (i + 1); Text "/";
                      Int (List.length all_voxels); Text " voxels..."]]
        else stdout in
      match inner_loop_or_raise i voxel 0 all_voxels neighbor_relationships with
      | None => (None, stdout)
      | Some neighbor_relationships =>
          outer_loop_or_raise all_voxels (S i) rest neighbor_relationships stdout
      end
  end.

(** [calculate_neighbors]: the relationships returned ([None] when a power
    raises) and the lines printed. *)
Definition calculate_neighbors (doc : Document) (stdout : list Line)
  : option (list PyDict) * list Line :=
  let '(all_voxels, stdout) := collect_voxels doc stdout in
  let stdout := stdout ++
    [[Text LF; Text "[STEP 2] Calculating neighbors (threshold: ";
      Float ADJACENCY_THRESHOLD; Text "m)..."];
     [Text "  This may take several minutes for 16K voxels..."]] in
  match outer_loop_or_raise all_voxels 0 all_voxels [] stdout with
  | (None, stdout) => (None, stdout)
  | (Some neighbor_relationships, stdout) =>
      (Some neighbor_relationships,
       stdout ++ [[Text LF; Text "  Found "; Int (List.length neighbor_relationships);
                   Text " neighbor relationships"]])
  end.

(** STEP 2 on an already collected voxel list: the relationships, or
    [None] when a power raises. *)
Definition neighbors_or_raise (all_voxels : list Voxel) : option (list PyDict) :=
  fst (outer_loop_or_raise all_voxels 0 all_voxels [] []).

(** *** The loops when no power raises

    What the two loops compute in a run in which no power raises: the
    dicts appended and the lines printed.  A run returns exactly when no
    power raises, and then with these ([neighbors_or_raise_Some]).

    The inner loop body, from [voxel] to [other]: the displacement, the
    distance and the dict appended when the pair is accepted. *)
Definition delta_x (voxel other : Voxel) : num := fsub (vx other) (vx voxel).
Definition delta_y (voxel other : Voxel) : num := fsub (vy other) (vy voxel).
Definition delta_z (voxel other : Voxel) : num := fsub (vz other) (vz voxel).

Definition distance3 (dx dy dz : num) : num :=
  froot (fadd (fadd (fsquare dx) (fsquare dy)) (fsquare dz)).

Definition voxel_distance (voxel other : Voxel) : num :=
  distance3 (delta_x voxel other) (delta_y voxel other) (delta_z voxel other).

Definition relationship (voxel other : Voxel) : PyDict :=
  let dx := delta_x voxel other in
  let dy := delta_y voxel other in
  let dz := delta_z voxel other in
  let distance := distance3 dx dy dz in
  let direction := determine_direction dx dy dz distance in
  [("from_voxel", PStr (voxel_id voxel));
   ("to_voxel", PStr (voxel_id other));
   ("direction", PStr direction);
   ("distance", PNum (fround3 distance))].

(** [for j, other in enumerate(all_voxels)], from index [j] on. *)
Fixpoint inner_loop (i : nat) (voxel : Voxel) (j : nat) (others : list Voxel)
    (neighbor_relationships : list PyDict) : list PyDict :=
  match others with
  | [] => neighbor_relationships
  | other :: rest =>
      if (i =? j)%nat then inner_loop i voxel (S j) rest neighbor_relationships
      else if fle (voxel_distance voxel other) ADJACENCY_THRESHOLD then
        inner_loop i voxel (S j) rest
          (neighbor_relationships ++ [relationship voxel other])
      else inner_loop i voxel (S j) rest neighbor_relationships
  end.

(** [for i, voxel in enumerate(all_voxels)], from index [i] on. *)
Fixpoint outer_loop (all_voxels : list Voxel) (i : nat) (voxels : list Voxel)
    (neighbor_relationships : list PyDict) (stdout : list Line)
  : list PyDict * list Line :=
  match voxels with
  | [] => (neighbor_relationships, stdout)
  | voxel :: rest =>
      let stdout :=
        if ((i + 1) mod 1000 =? 0)%nat then
          stdout ++ [[Text "    Processed "; Int (i + 1); Text "/";
                      Int (List.length all_voxels); Text " voxels..."]]
        else stdout in
      outer_loop all_voxels (S i) rest
        (inner_loop i voxel 0 all_voxels neighbor_relationships) stdout
  end.

(** The relationships computed from an already collected voxel list, when
    no power raises. *)
Definition neighbors_of (all_voxels : list Voxel) : list PyDict :=
  fst (outer_loop all_voxels 0 all_voxels [] []).

(** ** STEP 3: the CSV export *)

Definition output_folder : string := "C:\VoxelExport".

(** [os.path.join] on the host's (Windows) paths. *)
Definition path_join (folder name : string) : string := folder ++ "\" ++ name.

Definition fieldnames : list string :=
  ["from_voxel"; "to_voxel"; "direction"; "distance"].

(** A written CSV file: the header row and the data rows, cell by cell. *)
Record CsvFile : Type := {
  csv_header : list string;
  csv_rows : list (list PyVal)
}.

(** [csv.DictWriter._dict_to_list] with the defaults [restval=''] and
    [extrasaction='raise']: a key outside the field names raises ValueError
    ([None] here); a missing key is written as the empty string. *)
Definition dict_to_list (fields : list string) (rowdict : PyDict)
  : option (list PyVal) :=
  if forallb (fun k => existsb (String.eqb k) fields) (dict_keys rowdict) then
    Some (map (fun key => match dict_get rowdict key with
                          | Some v => v
                          | None => PStr ""
                          end) fields)
  else None.

Fixpoint writerows (fields : list string) (rowdicts : list PyDict)
  : option (list (list PyVal)) :=
  match rowdicts with
  | [] => Some []
  | rowdict :: rest =>
      match dict_to_list fields rowdict with
      | None => None
      | Some row =>
          match writerows fields rest with
          | None => None
          | Some rows => Some (row :: rows)
          end
      end
  end.

(** [export_neighbors_to_csv]: the path returned, the file written and the
    lines printed; [None] when the writer raises. *)
Definition export_neighbors_to_csv (relationships : list PyDict) (stdout : list Line)
  : option (string * CsvFile * list Line) :=
  let csv_file := path_join output_folder "voxel_neighbors.csv" in
  let stdout := stdout ++ [[Text LF; Text "[STEP 3] Exporting to: "; Text csv_file]] in
  match writerows fieldnames relationships with
  | None => None
  | Some rows =>
      Some (csv_file,
            {| csv_header := fieldnames; csv_rows := rows |},
            stdout ++ [[Text "✅ Neighbor relationships exported!"]])
  end.

(** ** Main execution *)

Fixpoint repeat_string (s : string) (n : nat) : string :=
  match n with
  | O => ""
  | S n' => s ++ repeat_string s n'
  end.

(** What a run leaves behind: the printed lines, the CSV file written (with
    its path) and the text of the closing message box. *)
Record Run : Type := {
  run_stdout : list Line;
  run_csv : option (string * CsvFile);
  run_message_box : option Line
}.

(** The lines and the message box that close a run. *)
Definition summary_lines (relationships : list PyDict) (csv_file : string)
  : list Line :=
  [[Text LF; Text (repeat_string "=" 70)];
   [Text "✅ NEIGHBOR CALCULATION COMPLETE!"];
   [Text (repeat_string "=" 70)];
   [Text LF; Text "Results:"];
   [Text "  Total relationships: "; Int (List.length relationships)];
   [Text "  Average neighbors per voxel: ";
    Float1f (fdiv (of_int (Z.of_nat (List.length relationships))) (of_int 16116))];
   [Text LF; Text "  Exported to: "; Text csv_file];
   [Text (repeat_string "=" 70)]].

Definition summary_message_box (relationships : list PyDict) (csv_file : string)
  : Line :=
  [Text "✅ Neighbor Calculation Complete!"; Text LF; Text LF;
   Text "Total relationships: "; IntComma (List.length relationships); Text LF;
   Text "Avg neighbors/voxel: ";
   Float1f (fdiv (of_int (Z.of_nat (List.length relationships))) (of_int 16116));
   Text LF; Text LF;
   Text "Exported to:"; Text LF; Text csv_file].

(** The module-level code after the definitions: [result] is the button
    the first message box returns (6 is Yes) and [stdout] holds the lines
    printed before it (the banner and the folder line).  [None] when an
    exception leaves the script: the OverflowError of a power in
    [calculate_neighbors], or an error of the writer. *)
Definition main (doc : Document) (result : Z) (stdout : list Line) : option Run :=
  if (result =? 6)%Z then
    match calculate_neighbors doc stdout with
    | (None, _) => None
    | (Some relationships, stdout) =>
        match export_neighbors_to_csv relationships stdout with
        | None => None
        | Some (csv_file, file, stdout) =>
            Some {| run_stdout := stdout ++ summary_lines relationships csv_file;
                    run_csv := Some (csv_file, file);
                    run_message_box := Some (summary_message_box relationships csv_file) |}
        end
    end
  else
    Some {| run_stdout := stdout ++ [[Text "Cancelled"]];
            run_csv := None;
            run_message_box := None |}.

End Script.

Arguments Point3d : clear implicits.
Arguments RhinoObject : clear implicits.
Arguments Document : clear implicits.
Arguments Voxel : clear implicits.
Arguments Piece : clear implicits.
Arguments Line : clear implicits.
Arguments PyVal : clear implicits.
Arguments PyDict : clear implicits.
Arguments CsvFile : clear implicits.
Arguments Run : clear implicits.

(** * Arithmetic *)

(** ** IEEE binary64: the script as CPython runs it

    A Python float is a binary64 number: [+], [-], [/], [abs] and the
    comparisons are those of IEEE 754, and a decimal literal is the
    nearest float.  No division of the script has a zero divisor:
    [determine_direction] divides after its [distance == 0] test, the
    other divisors are the literals 2.0 and 16116.

    [**] is [float.__pow__], which settles the special values itself and
    hands a finite positive base other than 1 to libm's [pow].  What
    [pow] returns is not fixed by IEEE 754, so it is a parameter
    ([Libm]), at the two exponents the script uses. *)

Module Binary64.

Local Open Scope float_scope.

Definition float_of_Z (n : Z) : float :=
  match n with
  | Z0 => 0
  | Zpos _ => of_uint63 (Uint63.of_Z n)
  | Zneg p => - of_uint63 (Uint63.of_Z (Zpos p))
  end.

(** [round(a, 3)] of CPython: the decimal with three digits nearest to the
    exact value of [a] (a tie to the even digit), then the float nearest to
    that decimal.  From 2^53 thousandths on, that float is [a] itself. *)
Definition thousandths (m : positive) (e : Z) : Z :=
  match e with
  | Zneg k =>
      let n := (Zpos m * 1000)%Z in
      let d := (2 ^ Zpos k)%Z in
      let q := (n / d)%Z in
      let r := (n mod d)%Z in
      if (2 * r <? d)%Z then q
      else if (d <? 2 * r)%Z then (q + 1)%Z
      else if Z.even q then q else (q + 1)%Z
  | _ => (Zpos m * 2 ^ e * 1000)%Z
  end.

Definition round3 (a : float) : float :=
  match Prim2SF a with
  | S754_finite s m e =>
      let n := thousandths m e in
      if (n <? 2 ^ 53)%Z then
        let v := float_of_Z n / 1000 in
        if s then - v else v
      else a
  | _ => a
  end.

(** libm's [pow(x, 2.0)] and [pow(x, 0.5)], for a finite [x > 0]. *)
Class Libm : Type := {
  pow_2 : float -> float;
  pow_half : float -> float
}.

(** [a ** 2], after [float_pow]: a NaN is returned as it is, an infinity
    gives infinity, a zero gives 0.0, a negative base is replaced by its
    absolute value (the exponent is an even integer), 1.0 gives 1.0;
    otherwise libm's [pow] decides, and an infinite result is the range
    error that raises OverflowError ([None]). *)
Definition float_pow_2 `{Libm} (a : float) : option float :=
  if is_nan a then Some a
  else if is_infinity a then Some infinity
  else if a =? 0 then Some 0
  else
    let b := abs a in
    if b =? 1 then Some 1
    else
      let p := pow_2 b in
      if is_infinity p then None else Some p.

(** [a ** 0.5], after [float_pow], for [a] that is not negative (a
    negative base would give a complex number; the script takes the root
    of a sum of squares). *)
Definition float_pow_half `{Libm} (a : float) : float :=
  if is_nan a then a
  else if is_infinity a then infinity
  else if a =? 0 then 0
  else if a =? 1 then 1
  else pow_half a.

(** Python's floats, over a given libm. *)
#[global] Instance python_float `{Libm} : PyFloat float := {|
  of_int := float_of_Z;
  fadd := PrimFloat.add;
  fsub := PrimFloat.sub;
  fdiv := PrimFloat.div;
  fsquare := fun a => match float_pow_2 a with
                      | Some p => p
                      | None => infinity
                      end;
  overflows := fun a => match float_pow_2 a with
                        | Some _ => false
                        | None => true
                        end;
  froot := float_pow_half;
  fabs := PrimFloat.abs;
  feq := PrimFloat.eqb;
  flt := PrimFloat.ltb;
  fle := PrimFloat.leb;
  fround3 := round3
|}.

(** A libm whose [pow] is correctly rounded at the two exponents: the
    product and the square root of IEEE 754.  The documents run below
    take powers whose exact value is a float, which every libm returns. *)
#[global] Instance correctly_rounded : Libm := {|
  pow_2 := fun a => a * a;
  pow_half := PrimFloat.sqrt
|}.

End Binary64.

(** ** The exact value of a float

    A finite float is the rational number (-1)^s m 2^e, given here in
    lowest terms.  The exact distance of a claim is stated on these
    values. *)

Module Exact.

Definition value (a : float) : option Q :=
  match Prim2SF a with
  | S754_zero _ => Some 0%Q
  | S754_finite s m (Zneg k) => Some (Qred (Qmake (cond_Zopp s (Zpos m)) (2 ^ k)))
  | S754_finite s m e => Some (inject_Z (cond_Zopp s (Zpos m) * 2 ^ e))
  | _ => None
  end.

Definition sub (a b : option Q) : option Q :=
  match a, b with
  | Some p, Some q => Some (p - q)%Q
  | _, _ => None
  end.

(** The square of the exact Euclidean distance between two voxels. *)
Definition squared_distance (A B : Voxel float) : option Q :=
  match sub (value (vx B)) (value (vx A)),
        sub (value (vy B)) (value (vy A)),
        sub (value (vz B)) (value (vz A)) with
  | Some dx, Some dy, Some dz => Some (Qred (dx * dx + dy * dy + dz * dz))
  | _, _, _ => None
  end.

End Exact.

(** * Closed forms and the definitions of the statements *)

(** ** The loops in closed form

    What each loop appends or prints, as a function of its input; these
    are related to the loops of the script in the lemmas below. *)

Section ClosedForms.

Context {num : Type} `{PyFloat num}.

(** The dicts one run of the inner loop appends. *)
Fixpoint inner_appended (i : nat) (voxel : Voxel num) (j : nat) (others : list (Voxel num))
  : list (PyDict num) :=
  match others with
  | [] => []
  | other :: rest =>
      (if (i =? j)%nat then []
       else if fle (voxel_distance voxel other) ADJACENCY_THRESHOLD
            then [relationship voxel other] else [])
      ++ inner_appended i voxel (S j) rest
  end.

(** The dicts one run of the outer loop appends. *)
Fixpoint outer_appended (all_voxels : list (Voxel num)) (i : nat) (voxels : list (Voxel num))
  : list (PyDict num) :=
  match voxels with
  | [] => []
  | voxel :: rest =>
      inner_appended i voxel 0 all_voxels ++ outer_appended all_voxels (S i) rest
  end.

(** The voxels a list of objects contributes, in order. *)
Definition registered (objects : list (RhinoObject num)) : list (Voxel num) :=
  flat_map (fun obj => match voxel_of_object obj with
                       | Some v => [v]
                       | None => []
                       end) objects.

(** The voxels of the four layers. *)
Definition collected (doc : Document num) : list (Voxel num) :=
  flat_map (fun layer => registered (doc layer)) layers.

(** The count lines of the layers that have objects. *)
Definition layer_lines (doc : Document num) (ls : list string) : list (Line num) :=
  flat_map (fun layer => match doc layer with
                         | [] => []
                         | _ :: _ =>
                             [[Text "  "; Text layer; Text ": ";
                               Int (List.length (doc layer)); Text " voxels"]]
                         end) ls.

(** The progress lines of the outer loop: one after every thousandth
    voxel. *)
Fixpoint progress_lines (total i remaining : nat) : list (Line num) :=
  match remaining with
  | O => []
  | S k =>
      (if ((i + 1) mod 1000 =? 0)%nat then
         [[Text "    Processed "; Int (i + 1); Text "/"; Int total; Text " voxels..."]]
       else [])
      ++ progress_lines total (S i) k
  end.

(** The lines [calculate_neighbors] prints. *)
Definition calculate_neighbors_lines (doc : Document num) : list (Line num) :=
  [[Text LF; Text "[STEP 1] Collecting all voxels from all layers..."]]
  ++ layer_lines doc layers
  ++ [[Text LF; Text "  Total voxels collected: "; Int (List.length (collected doc))]]
  ++ [[Text LF; Text "[STEP 2] Calculating neighbors (threshold: ";
       Float ADJACENCY_THRESHOLD; Text "m)..."];
      [Text "  This may take several minutes for 16K voxels..."]]
  ++ progress_lines (List.length (collected doc)) 0 (List.length (collected doc))
  ++ [[Text LF; Text "  Found "; Int (List.length (neighbors_of (collected doc)));
       Text " neighbor relationships"]].

(** An edge from id [a] to id [b] is among the relationships. *)
Definition emitted (all_voxels : list (Voxel num)) (a b : string) : Prop :=
  exists r, In r (neighbors_of all_voxels) /\
            dict_get r "from_voxel" = Some (PStr a) /\
            dict_get r "to_voxel" = Some (PStr b).

(** What the specification asks of duplicate ids (section 4.1): of the
    records with one id, only the last is kept. *)
Fixpoint last_write_wins (cells : list (Voxel num)) : list (Voxel num) :=
  match cells with
  | [] => []
  | v :: rest =>
      if existsb (fun w => String.eqb (voxel_id w) (voxel_id v)) rest
      then last_write_wins rest
      else v :: last_write_wins rest
  end.

(** The threshold test of the inner loop. *)
Definition accepts (voxel other : Voxel num) : bool :=
  fle (voxel_distance voxel other) ADJACENCY_THRESHOLD.

(** A power of the inner loop body raises, from [voxel] to [other]. *)
Definition raises (voxel other : Voxel num) : bool :=
  overflows (delta_x voxel other) || overflows (delta_y voxel other)
  || overflows (delta_z voxel other).

(** No pair of different indices makes a power raise. *)
Definition no_overflow (all_voxels : list (Voxel num)) : Prop :=
  forall i j voxel other,
    nth_error all_voxels i = Some voxel ->
    nth_error all_voxels j = Some other ->
    i <> j -> raises voxel other = false.

(** A record the collection step accepts, in the words of its two tests:
    a non-empty id and a bounding box of at least seven corners. *)
Definition valid_record (obj : RhinoObject num) : bool :=
  match GetUserText_voxel_id obj, BoundingBox obj with
  | Some (String _ _), Some bbox => (7 <=? List.length bbox)%nat
  | _, _ => false
  end.

Definition record_id (obj : RhinoObject num) : string :=
  match GetUserText_voxel_id obj with
  | Some id => id
  | None => ""
  end.

(** The document without the records that are not valid. *)
Definition without_invalid (doc : Document num) : Document num :=
  fun layer => filter valid_record (doc layer).

End ClosedForms.

(** ** Labels, as the specification states them *)

Definition six_labels : list string :=
  ["above"; "below"; "east"; "west"; "north"; "south"].

(** The pairs of opposite labels. *)
Inductive antipodal : string -> string -> Prop :=
| above_below : antipodal "above" "below"
| below_above : antipodal "below" "above"
| east_west : antipodal "east" "west"
| west_east : antipodal "west" "east"
| north_south : antipodal "north" "south"
| south_north : antipodal "south" "north".

Section Classification.

Context {num : Type} `{PyFloat num}.


End Classification.

(** ** Scaling a float by a power of two

    [shift_exponent k x] is the float x 2^k when that product is exact:
    the same sign and digits, the exponent moved by [k]. *)
Definition shift_exponent (k : Z) (x : spec_float) : spec_float :=
  match x with
  | S754_finite s m e => S754_finite s m (e + k)
  | _ => x
  end.

(** ** Opposite floats *)

(** [x'] is the opposite of [x], or both are +0. *)
Definition opposite (x x' : spec_float) : Prop :=
  x' = SFopp x \/ (x = S754_zero false /\ x' = S754_zero false).

(** A number other than zero: an infinity or a finite non-zero float. *)
Definition decides (x : spec_float) : bool :=
  match x with
  | S754_infinity _ | S754_finite _ _ _ => true
  | _ => false
  end.

(** ** Voxels and documents on binary64 *)

Module Scenarios.

Import Binary64.
Local Open Scope float_scope.

Definition voxel_at (id : string) (a b c : float) : Voxel float :=
  {| voxel_id := id; guid := 0; vx := a; vy := b; vz := c |}.

(** Scenario 1 of the specification: A(0,0,0), B(1,0,0), C(0,0,5). *)
Definition scenario_1 : list (Voxel float) :=
  [voxel_at "A" 0 0 0; voxel_at "B" 1 0 0; voxel_at "C" 0 0 5].

(** Scenario 2 of the specification: A(0,0,0), B(0,0,1). *)
Definition scenario_2 : list (Voxel float) :=
  [voxel_at "A" 0 0 0; voxel_at "B" 0 0 1].

Definition edge (a b direction : string) (distance : float) : PyDict float :=
  [("from_voxel", PStr a); ("to_voxel", PStr b);
   ("direction", PStr direction); ("distance", PNum distance)].

(** B lies beyond the threshold from A, by less than binary64 resolves:
    its exact distance is the square root of 1.5^2 + 2^-60. *)
Definition beyond_threshold : list (Voxel float) :=
  [voxel_at "A" 0 0 0; voxel_at "B" 1.5 0x1p-30 0].

(** Two voxels with different ids at one position. *)
Definition coincident_cells : list (Voxel float) :=
  [voxel_at "A" 0 0 0; voxel_at "B" 0 0 0].

(** Two voxels at different positions, so close that the square of their
    displacement underflows to 0. *)
Definition underflow_cells : list (Voxel float) :=
  [voxel_at "A" 0 0 0; voxel_at "B" 0x1p-600 0 0].

(** B lies just beyond 0.0625 from A, the tie between 0.062 and 0.063:
    its exact distance is the square root of 2^-8 + 2^-64. *)
Definition tie_cells : list (Voxel float) :=
  [voxel_at "A" 0 0 0; voxel_at "B" 0.0625 0x1p-32 0].

(** Scenario 1 with a fourth voxel so far away that the square of its
    displacement is out of range. *)
Definition far_cells : list (Voxel float) :=
  scenario_1 ++ [voxel_at "D" 0x1p+600 0 0].

End Scenarios.

Module Documents.

Import Binary64.
Local Open Scope float_scope.

(** The eight corners of the unit cube centred at (cx, cy, cz), in the
    order of [rs.BoundingBox]: corner 0 is the minimum and corner 6 the
    maximum. *)
Definition box (cx cy cz : float) : list (Point3d float) :=
  let lo a := a - 0.5 in
  let hi a := a + 0.5 in
  [{| pt_X := lo cx; pt_Y := lo cy; pt_Z := lo cz |};
   {| pt_X := hi cx; pt_Y := lo cy; pt_Z := lo cz |};
   {| pt_X := hi cx; pt_Y := hi cy; pt_Z := lo cz |};
   {| pt_X := lo cx; pt_Y := hi cy; pt_Z := lo cz |};
   {| pt_X := lo cx; pt_Y := lo cy; pt_Z := hi cz |};
   {| pt_X := hi cx; pt_Y := lo cy; pt_Z := hi cz |};
   {| pt_X := hi cx; pt_Y := hi cy; pt_Z := hi cz |};
   {| pt_X := lo cx; pt_Y := hi cy; pt_Z := hi cz |}].

Definition voxel_object (g : nat) (id : string) (cx cy cz : float) : RhinoObject float :=
  {| obj_guid := g; GetUserText_voxel_id := Some id; BoundingBox := Some (box cx cy cz) |}.

(** A document whose objects are all on "Layer 01". *)
Definition on_layer_01 (objects : list (RhinoObject float)) : Document float :=
  fun layer => if String.eqb layer "Layer 01" then objects else [].

(** Two records with the id "v1": the first next to "v2", the last far
    from it. *)
Definition duplicate_document : Document float :=
  on_layer_01 [voxel_object 1 "v1" 0 0 0; voxel_object 2 "v2" 1 0 0;
               voxel_object 3 "v1" 9 0 0].

(** A record without id, and a record whose box lies at infinity. *)
Definition nonfinite_document : Document float :=
  on_layer_01 [{| obj_guid := 1; GetUserText_voxel_id := None;
                  BoundingBox := Some (box 0 0 0) |};
               voxel_object 2 "v2" infinity 0 0].

(** Two adjacent voxels. *)
Definition adjacent_document : Document float :=
  on_layer_01 [voxel_object 1 "A" 0 0 0; voxel_object 2 "B" 1 0 0].

Definition average_line (a : float) : Line float :=
  [Text "  Average neighbors per voxel: "; Float1f a].

(** The two adjacent voxels, and a third object on a layer the script does
    not read. *)
Definition extra_layer_document : Document float :=
  fun layer =>
    if String.eqb layer "Layer 05" then [voxel_object 3 "C" 0 1 0]
    else adjacent_document layer.

(** Two voxels so far apart that the square of their displacement is out
    of range. *)
Definition far_document : Document float :=
  on_layer_01 [voxel_object 1 "A" 0 0 0; voxel_object 2 "D" 0x1p+600 0 0].

(** A document without objects. *)
Definition empty_document : Document float := fun _ => [].

End Documents.

(** * The highlighter

    The class [VoxelHighlighter] of the first part of the file.  The
    Rhino document is the list of its objects in the order of
    [rs.AllObjects()], each with its guid, its "voxel_id" user text and
    its colour; a guid is an object, hence true in a test.  A call takes
    the state before and gives the state after; an exception that leaves
    a method is a [Raised] outcome, with the state as it was when raised. *)

Module VoxelHighlighter.

Definition Color : Type := (nat * nat * nat)%type.

Record SceneObject : Type := {
  guid_of : nat;
  voxel_id_of : option string;   (* rs.GetUserText(guid, 'voxel_id') *)
  color_of : Color
}.

Definition Scene : Type := list SceneObject.

Inductive Outcome (A : Type) : Type :=
| Returned (a : A)
| Raised (exception : string).

Arguments Returned {A} a.
Arguments Raised {A} exception.

(** [d.get(key)] on a dict given by its items. *)
Fixpoint get {V : Type} (d : list (string * V)) (key : string) : option V :=
  match d with
  | [] => None
  | (k, v) :: rest => if String.eqb k key then Some v else get rest key
  end.

Definition default_scheme : list (string * Color) :=
  [("High", (255, 0, 0)); ("Medium", (255, 255, 0));
   ("Low", (0, 255, 0)); ("Default", (100, 100, 100))].

(** [__init__]: [color_scheme or {...}]; None and the empty dict are
    false. *)
Definition init (color_scheme : option (list (string * Color))) : list (string * Color) :=
  match color_scheme with
  | None => default_scheme
  | Some [] => default_scheme
  | Some scheme => scheme
  end.

(** The document, the list [self.highlighted_objects] and the printed
    lines (a line is the list of the arguments of its [print], None being
    Python's None). *)
Record State : Type := {
  scene : Scene;
  highlighted_objects : list nat;
  printed : list (list (option string))
}.

(** [stored_id == voxel_id], either of which may be None. *)
Definition same_id (stored_id voxel_id : option string) : bool :=
  match stored_id, voxel_id with
  | Some a, Some b => String.eqb a b
  | None, None => true
  | _, _ => false
  end.

(** The loop of [find_voxel_by_id]. *)
Fixpoint first_match (all_objects : Scene) (voxel_id : option string) : option nat :=
  match all_objects with
  | [] => None
  | obj :: rest =>
      if same_id (voxel_id_of obj) voxel_id then Some (guid_of obj)
      else first_match rest voxel_id
  end.

Definition find_voxel_by_id (all_objects : Scene) (voxel_id : option string) : option nat :=
  match all_objects with
  | [] => None                                   (* if not all_objects *)
  | _ :: _ => first_match all_objects voxel_id
  end.

Definition recolor (g : nat) (color : Color) (obj : SceneObject) : SceneObject :=
  if (guid_of obj =? g)%nat
  then {| guid_of := guid_of obj; voxel_id_of := voxel_id_of obj; color_of := color |}
  else obj.

(** [rs.ObjectColor(guid, color)]: the object of that guid takes the
    colour; [None] when the document has no such object (the call
    raises). *)
Definition ObjectColor (sc : Scene) (g : nat) (color : Color) : option Scene :=
  if existsb (fun obj => (guid_of obj =? g)%nat) sc
  then Some (map (recolor g color) sc)
  else None.

Definition highlight_voxel (voxel_id : option string) (color : Color) (st : State)
  : Outcome bool * State :=
  match find_voxel_by_id (scene st) voxel_id with
  | None =>
      (Returned false,
       {| scene := scene st;
          highlighted_objects := highlighted_objects st;
          printed := printed st ++ [[Some "  Voxel"; voxel_id; Some "not found in Rhino"]] |})
  | Some obj_guid =>
      match ObjectColor (scene st) obj_guid color with
      | None => (Raised "ObjectColor", st)
      | Some sc =>
          (Returned true,
           {| scene := sc;
              highlighted_objects := highlighted_objects st ++ [obj_guid];
              printed := printed st |})
      end
  end.

(** An element of [voxel_list]: a voxel id, or a dict (the values of the
    two keys read are strings). *)
Inductive Item : Type :=
| Id (voxel_id : string)
| Dict (d : list (string * string)).

(** The id and the colour the loop body of [highlight_voxels] computes
    for an item; [None] is the KeyError of [self.color_scheme['Default']],
    which is evaluated before the [get] it is the default of. *)
Definition id_and_color (color_scheme : list (string * Color)) (item : Item)
  : option (option string * Color) :=
  match item with
  | Dict d =>
      let voxel_id := get d "voxel_id" in
      let risk := match get d "overall_risk_level" with
                  | Some risk => risk
                  | None => "Default"
                  end in
      match get color_scheme "Default" with
      | None => None
      | Some default =>
          Some (voxel_id, match get color_scheme risk with
                          | Some color => color
                          | None => default
                          end)
      end
  | Id voxel_id => Some (Some voxel_id, (255, 0, 0))
  end.

Fixpoint highlight_loop (color_scheme : list (string * Color)) (voxel_list : list Item)
    (count : nat) (st : State) : Outcome nat * State :=
  match voxel_list with
  | [] => (Returned count, st)
  | item :: rest =>
      match id_and_color color_scheme item with
      | None => (Raised "KeyError", st)
      | Some (voxel_id, color) =>
          match highlight_voxel voxel_id color st with
          | (Returned true, st') => highlight_loop color_scheme rest (count + 1) st'
          | (Returned false, st') => highlight_loop color_scheme rest count st'
          | (Raised e, st') => (Raised e, st')
          end
      end
  end.

Definition highlight_voxels (color_scheme : list (string * Color)) (voxel_list : list Item)
    (st : State) : Outcome nat * State :=
  highlight_loop color_scheme voxel_list 0 st.

(** The loop of [clear_all]: a failing [rs.ObjectColor] is passed over. *)
Fixpoint clear_loop (guids : list nat) (sc : Scene) : Scene :=
  match guids with
  | [] => sc
  | obj_guid :: rest =>
      match ObjectColor sc obj_guid (200, 200, 200) with
      | Some sc' => clear_loop rest sc'
      | None => clear_loop rest sc
      end
  end.

Definition clear_all (st : State) : State :=
  {| scene := clear_loop (highlighted_objects st) (scene st);
     highlighted_objects := [];
     printed := printed st ++ [[Some "Cleared all highlighting"]] |}.

(** *** Definitions of the statements *)

(** The id an item asks for. *)
Definition item_voxel_id (item : Item) : option string :=
  match item with
  | Id voxel_id => Some voxel_id
  | Dict d => get d "voxel_id"
  end.

(** The guids found for the items of a list, in order. *)
Definition found_guids (sc : Scene) (voxel_list : list Item) : list nat :=
  flat_map (fun item => match find_voxel_by_id sc (item_voxel_id item) with
                        | Some g => [g]
                        | None => []
                        end) voxel_list.

(** The lines printed for the items that are not found. *)
Definition not_found_lines (sc : Scene) (voxel_list : list Item)
  : list (list (option string)) :=
  flat_map (fun item => match find_voxel_by_id sc (item_voxel_id item) with
                        | Some _ => []
                        | None => [[Some "  Voxel"; item_voxel_id item;
                                    Some "not found in Rhino"]]
                        end) voxel_list.

Definition is_id (item : Item) : bool :=
  match item with
  | Id _ => true
  | Dict _ => false
  end.

(** The object painted gray when its guid is one of [guids]. *)
Definition gray_if_in (guids : list nat) (obj : SceneObject) : SceneObject :=
  if existsb (Nat.eqb (guid_of obj)) guids
  then {| guid_of := guid_of obj; voxel_id_of := voxel_id_of obj;
          color_of := (200, 200, 200) |}
  else obj.

(** The guid and the id of each object, which no method changes. *)
Definition tags (sc : Scene) : list (nat * option string) :=
  map (fun obj => (guid_of obj, voxel_id_of obj)) sc.

(** [changed_only guids sc sc']: the two documents have the same objects,
    with the same colours but for the objects of the given guids. *)
Definition changed_only (guids : list nat) (sc sc' : Scene) : Prop :=
  Forall2 (fun obj obj' =>
             guid_of obj' = guid_of obj /\ voxel_id_of obj' = voxel_id_of obj /\
             (~ In (guid_of obj) guids -> color_of obj' = color_of obj)) sc sc'.

(** A document of three objects: two tagged voxels and an untagged
    object between them. *)
Definition sample_scene : Scene :=
  [{| guid_of := 1; voxel_id_of := Some "v_M1_00001"; color_of := (0, 0, 0) |};
   {| guid_of := 2; voxel_id_of := None; color_of := (0, 0, 0) |};
   {| guid_of := 3; voxel_id_of := Some "v_M1_00002"; color_of := (0, 0, 0) |}].

Definition sample_state : State :=
  {| scene := sample_scene; highlighted_objects := []; printed := [] |}.

End VoxelHighlighter.

(** * Theorems *)

(** ** The loops, characterised

    These hold for every arithmetic: they are about the control flow of
    the script only. *)

Section Loops.

Context {num : Type} `{PyFloat num}.

Lemma inner_loop_appends (i : nat) (voxel : Voxel num) (others : list (Voxel num)) :
  forall (j : nat) (acc : list (PyDict num)),
    inner_loop i voxel j others acc = acc ++ inner_appended i voxel j others.
Proof.
  induction others as [|other rest IH]; intros j acc; simpl.
  - now rewrite app_nil_r.
  - destruct (i =? j)%nat; [apply IH|].
    destruct (fle (voxel_distance voxel other) ADJACENCY_THRESHOLD).
    + rewrite IH, <- app_assoc. reflexivity.
    + apply IH.
Qed.

Lemma in_inner_appended (i : nat) (voxel : Voxel num) (others : list (Voxel num)) :
  forall (j : nat) (r : PyDict num),
    In r (inner_appended i voxel j others) <->
    exists k other,
      nth_error others k = Some other /\ i <> j + k /\
      fle (voxel_distance voxel other) ADJACENCY_THRESHOLD = true /\
      r = relationship voxel other.
Proof.
  induction others as [|other rest IH]; intros j r; simpl.
  - split; [tauto|]. intros (k & o & Hk & _). destruct k; discriminate.
  - rewrite in_app_iff, IH. split.
    + intros [Hr | (k & o & Hk & Hne & Hle & ->)].
      * destruct (Nat.eqb_spec i j) as [|Hne]; [contradiction|].
        destruct (fle (voxel_distance voxel other) ADJACENCY_THRESHOLD) eqn:Hle;
          [|contradiction].
        destruct Hr as [<-|[]]. exists 0, other. repeat split; auto. lia.
      * exists (S k), o. repeat split; auto. lia.
    + intros (k & o & Hk & Hne & Hle & ->). destruct k as [|k]; simpl in Hk.
      * injection Hk as ->. left.
        destruct (Nat.eqb_spec i j) as [->|_]; [lia|]. rewrite Hle. now left.
      * right. exists k, o. repeat split; auto. lia.
Qed.

Lemma outer_loop_appends (all_voxels voxels : list (Voxel num)) :
  forall (i : nat) (acc : list (PyDict num)) (stdout : list (Line num)),
    fst (outer_loop all_voxels i voxels acc stdout)
    = acc ++ outer_appended all_voxels i voxels.
Proof.
  induction voxels as [|voxel rest IH]; intros i acc stdout; simpl.
  - now rewrite app_nil_r.
  - rewrite IH, inner_loop_appends, <- app_assoc. reflexivity.
Qed.

Lemma in_outer_appended (all_voxels voxels : list (Voxel num)) :
  forall (i : nat) (r : PyDict num),
    In r (outer_appended all_voxels i voxels) <->
    exists k voxel,
      nth_error voxels k = Some voxel /\
      In r (inner_appended (i + k) voxel 0 all_voxels).
Proof.
  induction voxels as [|voxel rest IH]; intros i r; simpl.
  - split; [tauto|]. intros (k & v & Hk & _). destruct k; discriminate.
  - rewrite in_app_iff, IH. split.
    + intros [Hr | (k & v & Hk & Hr)].
      * exists 0, voxel. rewrite Nat.add_0_r. auto.
      * exists (S k), v. rewrite Nat.add_succ_r. auto.
    + intros (k & v & Hk & Hr). destruct k as [|k]; simpl in Hk.
      * injection Hk as ->. rewrite Nat.add_0_r in Hr. now left.
      * right. exists k, v. rewrite Nat.add_succ_r in Hr. auto.
Qed.

(** The relationships are the dicts of the ordered pairs of different
    indices whose computed distance passes the threshold test. *)
Lemma in_neighbors_of (all_voxels : list (Voxel num)) (r : PyDict num) :
  In r (neighbors_of all_voxels) <->
  exists i j voxel other,
    nth_error all_voxels i = Some voxel /\
    nth_error all_voxels j = Some other /\
    i <> j /\
    fle (voxel_distance voxel other) ADJACENCY_THRESHOLD = true /\
    r = relationship voxel other.
Proof.
  unfold neighbors_of. rewrite outer_loop_appends. simpl.
  rewrite in_outer_appended. split.
  - intros (i & voxel & Hi & Hr). apply in_inner_appended in Hr.
    destruct Hr as (j & other & Hj & Hne & Hle & ->).
    exists i, j, voxel, other. auto.
  - intros (i & j & voxel & other & Hi & Hj & Hne & Hle & ->).
    exists i, voxel. split; [assumption|]. apply in_inner_appended.
    exists j, other. auto.
Qed.

Lemma relationship_from (v o : Voxel num) :
  dict_get (relationship v o) "from_voxel" = Some (PStr (voxel_id v)).
Proof. reflexivity. Qed.

Lemma relationship_to (v o : Voxel num) :
  dict_get (relationship v o) "to_voxel" = Some (PStr (voxel_id o)).
Proof. reflexivity. Qed.

Lemma relationship_direction (v o : Voxel num) :
  dict_get (relationship v o) "direction"
  = Some (PStr (determine_direction (delta_x v o) (delta_y v o) (delta_z v o)
                  (voxel_distance v o))).
Proof. reflexivity. Qed.

Lemma relationship_distance (v o : Voxel num) :
  dict_get (relationship v o) "distance" = Some (PNum (fround3 (voxel_distance v o))).
Proof. reflexivity. Qed.

Lemma NoDup_map_injective {A B : Type} (f : A -> B) (l : list A) :
  NoDup (map f l) ->
  forall i j a b, nth_error l i = Some a -> nth_error l j = Some b ->
                  f a = f b -> i = j.
Proof.
  intros Hnd i j a b Hi Hj Hab.
  apply (proj1 (NoDup_nth_error (map f l)) Hnd).
  - rewrite length_map. apply nth_error_Some. congruence.
  - rewrite !nth_error_map, Hi, Hj. simpl. congruence.
Qed.

Lemma neighbors_of_relationships (all_voxels : list (Voxel num)) :
  Forall (fun r => exists A B, In A all_voxels /\ In B all_voxels /\ r = relationship A B)
         (neighbors_of all_voxels).
Proof.
  apply Forall_forall. intros r Hr. apply in_neighbors_of in Hr.
  destruct Hr as (i & j & A & B & Hi & Hj & _ & _ & ->).
  exists A, B. eauto using nth_error_In.
Qed.

(** With pairwise distinct ids, a relationship is the dict of the two
    voxels its ids name. *)
Lemma relationship_of_ids (all_voxels : list (Voxel num)) (A B : Voxel num) (r : PyDict num) :
  NoDup (map voxel_id all_voxels) ->
  In A all_voxels -> In B all_voxels ->
  In r (neighbors_of all_voxels) ->
  dict_get r "from_voxel" = Some (PStr (voxel_id A)) ->
  dict_get r "to_voxel" = Some (PStr (voxel_id B)) ->
  r = relationship A B /\
  fle (voxel_distance A B) ADJACENCY_THRESHOLD = true.
Proof.
  intros Hnd HA HB Hr Hfrom Hto.
  apply in_neighbors_of in Hr.
  destruct Hr as (i & j & v & o & Hi & Hj & _ & Hle & ->).
  rewrite relationship_from in Hfrom. rewrite relationship_to in Hto.
  apply In_nth_error in HA, HB.
  destruct HA as [iA HiA], HB as [iB HiB].
  assert (i = iA) as ->
      by (apply (NoDup_map_injective voxel_id all_voxels Hnd i iA v A); congruence).
  assert (j = iB) as ->
      by (apply (NoDup_map_injective voxel_id all_voxels Hnd j iB o B); congruence).
  assert (v = A) as -> by congruence.
  assert (o = B) as -> by congruence.
  auto.
Qed.

Lemma emitted_iff_accepted (all_voxels : list (Voxel num)) (A B : Voxel num) :
  NoDup (map voxel_id all_voxels) ->
  In A all_voxels -> In B all_voxels -> A <> B ->
  (emitted all_voxels (voxel_id A) (voxel_id B) <->
   fle (voxel_distance A B) ADJACENCY_THRESHOLD = true).
Proof.
  intros Hnd HA HB Hne. split.
  - intros (r & Hr & Hfrom & Hto).
    now destruct (relationship_of_ids all_voxels A B r Hnd HA HB Hr Hfrom Hto).
  - intros Hle. exists (relationship A B). split; [|split; reflexivity].
    apply in_neighbors_of.
    destruct (In_nth_error _ _ HA) as [i Hi].
    destruct (In_nth_error _ _ HB) as [j Hj].
    exists i, j, A, B. repeat split; auto.
    intros ->. apply Hne. congruence.
Qed.

End Loops.

(** ** STEP 1 in closed form *)

Section Collection.

Context {num : Type} `{PyFloat num}.

Lemma collect_objects_registered (objects : list (RhinoObject num)) :
  forall all_voxels,
    collect_objects objects all_voxels = all_voxels ++ registered objects.
Proof.
  induction objects as [|obj rest IH]; intros acc; simpl.
  - now rewrite app_nil_r.
  - destruct (voxel_of_object obj); rewrite IH.
    + now rewrite <- app_assoc.
    + reflexivity.
Qed.

Lemma collect_layers_closed (doc : Document num) (ls : list string) :
  forall all_voxels stdout,
    collect_layers doc ls all_voxels stdout
    = (all_voxels ++ flat_map (fun layer => registered (doc layer)) ls,
       stdout ++ layer_lines doc ls).
Proof.
  induction ls as [|layer rest IH]; intros acc out; simpl.
  - now rewrite !app_nil_r.
  - destruct (doc layer) as [|obj objs] eqn:Hdoc.
    + rewrite IH. reflexivity.
    + rewrite IH, collect_objects_registered, <- !app_assoc. reflexivity.
Qed.

Lemma collect_voxels_closed (doc : Document num) (stdout : list (Line num)) :
  collect_voxels doc stdout
  = (collected doc,
     stdout ++ [[Text LF; Text "[STEP 1] Collecting all voxels from all layers..."]]
       ++ layer_lines doc layers
       ++ [[Text LF; Text "  Total voxels collected: "; Int (List.length (collected doc))]]).
Proof.
  unfold collect_voxels. rewrite collect_layers_closed. simpl app at 1.
  unfold collected. now rewrite <- !app_assoc.
Qed.

Lemma in_registered (objects : list (RhinoObject num)) (v : Voxel num) :
  In v (registered objects) <->
  exists obj, In obj objects /\ voxel_of_object obj = Some v.
Proof.
  unfold registered. rewrite in_flat_map. split.
  - intros (obj & Hobj & Hv). exists obj. split; [assumption|].
    destruct (voxel_of_object obj); simpl in Hv; [|contradiction].
    destruct Hv as [->|[]]. reflexivity.
  - intros (obj & Hobj & Hv). exists obj. split; [assumption|].
    rewrite Hv. now left.
Qed.

Lemma in_collected (doc : Document num) (v : Voxel num) :
  In v (collected doc) <->
  exists layer obj,
    In layer layers /\ In obj (doc layer) /\ voxel_of_object obj = Some v.
Proof.
  unfold collected. rewrite in_flat_map. split.
  - intros (layer & Hl & Hv). apply in_registered in Hv.
    destruct Hv as (obj & Hobj & Hv). eauto.
  - intros (layer & obj & Hl & Hobj & Hv). exists layer. split; [assumption|].
    apply in_registered. eauto.
Qed.

(** What [voxel_of_object] accepts: a non-empty id and a bounding box of
    at least seven corners; the coordinates are not examined. *)
Lemma voxel_of_object_Some (obj : RhinoObject num) (v : Voxel num) :
  voxel_of_object obj = Some v <->
  exists bbox b0 b6,
    GetUserText_voxel_id obj = Some (voxel_id v) /\ voxel_id v <> "" /\
    BoundingBox obj = Some bbox /\ 7 <= List.length bbox /\
    nth_error bbox 0 = Some b0 /\ nth_error bbox 6 = Some b6 /\
    v = {| voxel_id := voxel_id v; guid := obj_guid obj;
           vx := fdiv (fadd (pt_X b0) (pt_X b6)) lit_2_0;
           vy := fdiv (fadd (pt_Y b0) (pt_Y b6)) lit_2_0;
           vz := fdiv (fadd (pt_Z b0) (pt_Z b6)) lit_2_0 |}.
Proof.
  unfold voxel_of_object. split.
  - destruct (GetUserText_voxel_id obj) as [[|c id]|]; try discriminate.
    destruct (BoundingBox obj) as [bbox|]; try discriminate.
    destruct (Nat.leb_spec 7 (List.length bbox)) as [Hlen|]; try discriminate.
    destruct (nth_error bbox 0) as [b0|] eqn:H0; try discriminate.
    destruct (nth_error bbox 6) as [b6|] eqn:H6; try discriminate.
    intros [= <-]. exists bbox, b0, b6. cbn [voxel_id].
    repeat split; auto. discriminate.
  - intros (bbox & b0 & b6 & Hid & Hne & Hbox & Hlen & H0 & H6 & Hv).
    rewrite Hid, Hbox, H0, H6.
    destruct (voxel_id v) as [|c id] eqn:Hvid; [contradiction|].
    destruct (Nat.leb_spec 7 (List.length bbox)); [|lia].
    now rewrite Hv.
Qed.

Lemma voxel_of_object_no_id (obj : RhinoObject num) :
  GetUserText_voxel_id obj = None \/ GetUserText_voxel_id obj = Some "" ->
  voxel_of_object obj = None.
Proof. unfold voxel_of_object. now intros [-> | ->]. Qed.

Lemma registered_skip (objs1 objs2 : list (RhinoObject num)) (obj : RhinoObject num) :
  voxel_of_object obj = None ->
  registered (objs1 ++ obj :: objs2) = registered (objs1 ++ objs2).
Proof.
  intros Hnone. unfold registered. rewrite !flat_map_app. simpl.
  now rewrite Hnone.
Qed.

End Collection.

(** ** STEP 2, STEP 3 and the whole run in closed form *)

Section Runs.

Context {num : Type} `{PyFloat num}.

Lemma outer_loop_stdout (all_voxels voxels : list (Voxel num)) :
  forall i acc stdout,
    snd (outer_loop all_voxels i voxels acc stdout)
    = stdout ++ progress_lines (List.length all_voxels) i (List.length voxels).
Proof.
  induction voxels as [|voxel rest IH]; intros i acc stdout;
    cbn [outer_loop progress_lines List.length snd].
  - now rewrite app_nil_r.
  - rewrite IH. destruct ((i + 1) mod 1000 =? 0)%nat.
    + now rewrite <- app_assoc.
    + reflexivity.
Qed.

Lemma outer_loop_neighbors_of (all_voxels : list (Voxel num)) (stdout : list (Line num)) :
  fst (outer_loop all_voxels 0 all_voxels [] stdout) = neighbors_of all_voxels.
Proof. unfold neighbors_of. now rewrite !outer_loop_appends. Qed.

End Runs.

(** ** The loops with the exception of a power

    A run of the loops returns exactly when no visited pair makes a power
    raise, and it then returns what the loops without the exception
    compute. *)

Section Raising.

Context {num : Type} `{PyFloat num}.

Lemma distance_or_raise_raises (voxel other : Voxel num) :
  distance_or_raise (delta_x voxel other) (delta_y voxel other) (delta_z voxel other)
  = if raises voxel other then None else Some (voxel_distance voxel other).
Proof.
  unfold distance_or_raise, power_2, raises, voxel_distance, distance3.
  destruct (overflows (delta_x voxel other)); [reflexivity|].
  destruct (overflows (delta_y voxel other)); [reflexivity|].
  destruct (overflows (delta_z voxel other)); reflexivity.
Qed.

Lemma inner_loop_or_raise_step (i : nat) (voxel other : Voxel num) (j : nat)
    (rest : list (Voxel num)) (acc : list (PyDict num)) :
  inner_loop_or_raise i voxel j (other :: rest) acc
  = if (i =? j)%nat then inner_loop_or_raise i voxel (S j) rest acc
    else if raises voxel other then None
    else if fle (voxel_distance voxel other) ADJACENCY_THRESHOLD
         then inner_loop_or_raise i voxel (S j) rest (acc ++ [relationship voxel other])
         else inner_loop_or_raise i voxel (S j) rest acc.
Proof.
  cbn [inner_loop_or_raise]. destruct (i =? j)%nat; [reflexivity|].
  change (fsub (vx other) (vx voxel)) with (delta_x voxel other).
  change (fsub (vy other) (vy voxel)) with (delta_y voxel other).
  change (fsub (vz other) (vz voxel)) with (delta_z voxel other).
  cbv zeta. rewrite distance_or_raise_raises.
  destruct (raises voxel other); reflexivity.
Qed.

(** The inner loop returns when no visited voxel makes a power raise. *)
Lemma inner_loop_or_raise_returns (i : nat) (voxel : Voxel num) (others : list (Voxel num)) :
  forall (j : nat) (acc : list (PyDict num)),
    (forall k other, nth_error others k = Some other -> i <> j + k ->
                     raises voxel other = false) ->
    inner_loop_or_raise i voxel j others acc = Some (inner_loop i voxel j others acc).
Proof.
  induction others as [|other rest IH]; intros j acc Hno; [reflexivity|].
  rewrite inner_loop_or_raise_step. cbn [inner_loop].
  assert (Hrest : forall k o, nth_error rest k = Some o -> i <> S j + k ->
                              raises voxel o = false).
  { intros k o Hk Hne. apply (Hno (S k) o); [exact Hk|lia]. }
  destruct (Nat.eqb_spec i j) as [->|Hne]; [now apply IH|].
  rewrite (Hno 0 other) by (reflexivity || lia).
  destruct (fle (voxel_distance voxel other) ADJACENCY_THRESHOLD); now apply IH.
Qed.

(** When the inner loop returns, no visited voxel made a power raise and
    the result is that of the loop without the exception. *)
Lemma inner_loop_or_raise_Some (i : nat) (voxel : Voxel num) (others : list (Voxel num)) :
  forall (j : nat) (acc r : list (PyDict num)),
    inner_loop_or_raise i voxel j others acc = Some r ->
    r = inner_loop i voxel j others acc /\
    forall k other, nth_error others k = Some other -> i <> j + k ->
                    raises voxel other = false.
Proof.
  induction others as [|other rest IH]; intros j acc r Hrun.
  - injection Hrun as <-. split; [reflexivity|]. intros [|k] o Hk; discriminate.
  - rewrite inner_loop_or_raise_step in Hrun. cbn [inner_loop].
    destruct (Nat.eqb_spec i j) as [->|Hne].
    + destruct (IH _ _ _ Hrun) as [Hr Hno]. split; [exact Hr|].
      intros [|k] o Hk Hjk; [lia|]. apply (Hno k o Hk). lia.
    + destruct (raises voxel other) eqn:Hraise; [discriminate|].
      destruct (fle (voxel_distance voxel other) ADJACENCY_THRESHOLD);
        destruct (IH _ _ _ Hrun) as [Hr Hno]; (split; [exact Hr|]);
        intros [|k] o Hk Hjk;
        try (injection Hk as <-; exact Hraise);
        apply (Hno k o Hk); lia.
Qed.

Lemma outer_loop_or_raise_returns (all_voxels voxels : list (Voxel num)) :
  forall (i : nat) (acc : list (PyDict num)) (stdout : list (Line num)),
    (forall k voxel j other,
        nth_error voxels k = Some voxel -> nth_error all_voxels j = Some other ->
        i + k <> j -> raises voxel other = false) ->
    outer_loop_or_raise all_voxels i voxels acc stdout
    = (Some (fst (outer_loop all_voxels i voxels acc stdout)),
       snd (outer_loop all_voxels i voxels acc stdout)).
Proof.
  induction voxels as [|voxel rest IH]; intros i acc stdout Hno; [reflexivity|].
  cbn [outer_loop_or_raise outer_loop].
  rewrite inner_loop_or_raise_returns.
  - apply IH. intros k v j o Hk Hj Hne. apply (Hno (S k) v j o Hk Hj). lia.
  - intros j o Hj Hne. apply (Hno 0 voxel j o); [reflexivity|exact Hj|lia].
Qed.

Lemma outer_loop_or_raise_Some (all_voxels voxels : list (Voxel num)) :
  forall (i : nat) (acc r : list (PyDict num)) (stdout stdout' : list (Line num)),
    outer_loop_or_raise all_voxels i voxels acc stdout = (Some r, stdout') ->
    forall k voxel j other,
      nth_error voxels k = Some voxel -> nth_error all_voxels j = Some other ->
      i + k <> j -> raises voxel other = false.
Proof.
  induction voxels as [|voxel rest IH]; intros i acc r stdout stdout' Hrun k v j o Hk Hj Hne.
  - destruct k; discriminate.
  - cbn [outer_loop_or_raise] in Hrun.
    destruct (inner_loop_or_raise i voxel 0 all_voxels acc) as [acc'|] eqn:Hinner;
      [|discriminate].
    destruct k as [|k].
    + injection Hk as <-.
      apply (proj2 (inner_loop_or_raise_Some _ _ _ _ _ _ Hinner) j o Hj). lia.
    + apply (IH _ _ _ _ _ Hrun k v j o Hk Hj). lia.
Qed.

(** The lines printed do not change what the loops return. *)
Lemma outer_loop_or_raise_fst (all_voxels voxels : list (Voxel num)) :
  forall (i : nat) (acc : list (PyDict num)) (stdout stdout' : list (Line num)),
    fst (outer_loop_or_raise all_voxels i voxels acc stdout)
    = fst (outer_loop_or_raise all_voxels i voxels acc stdout').
Proof.
  induction voxels as [|voxel rest IH]; intros i acc stdout stdout'; [reflexivity|].
  cbn [outer_loop_or_raise].
  destruct (inner_loop_or_raise i voxel 0 all_voxels acc); [apply IH|reflexivity].
Qed.

(** STEP 2 returns exactly when no pair makes a power raise, and it then
    returns the relationships of the loops without the exception. *)
Lemma neighbors_or_raise_Some (all_voxels : list (Voxel num)) (rels : list (PyDict num)) :
  neighbors_or_raise all_voxels = Some rels <->
  no_overflow all_voxels /\ rels = neighbors_of all_voxels.
Proof.
  unfold neighbors_or_raise, neighbors_of, no_overflow. split.
  - intros Hrun.
    destruct (outer_loop_or_raise all_voxels 0 all_voxels [] []) as [r out] eqn:Hloop.
    cbn [fst] in Hrun. subst r.
    pose proof (outer_loop_or_raise_Some _ _ _ _ _ _ _ Hloop) as Hno.
    assert (Hno' : forall i j voxel other,
               nth_error all_voxels i = Some voxel -> nth_error all_voxels j = Some other ->
               i <> j -> raises voxel other = false).
    { intros i j v o Hi Hj Hne. apply (Hno i v j o Hi Hj). exact Hne. }
    split; [exact Hno'|].
    rewrite outer_loop_or_raise_returns in Hloop.
    + now injection Hloop as <- _.
    + intros k v j o Hk Hj Hne. apply (Hno' k j v o Hk Hj). exact Hne.
  - intros [Hno ->]. rewrite outer_loop_or_raise_returns; [reflexivity|].
    intros k v j o Hk Hj Hne. apply (Hno k j v o Hk Hj). exact Hne.
Qed.

Lemma neighbors_or_raise_cases (all_voxels : list (Voxel num)) :
  neighbors_or_raise all_voxels = Some (neighbors_of all_voxels) \/
  neighbors_or_raise all_voxels = None.
Proof.
  destruct (neighbors_or_raise all_voxels) as [rels|] eqn:Hrun; [left|now right].
  apply neighbors_or_raise_Some in Hrun. now destruct Hrun as [_ ->].
Qed.

(** [calculate_neighbors] is STEP 2 on the voxels collected. *)
Lemma calculate_neighbors_fst (doc : Document num) (stdout : list (Line num)) :
  fst (calculate_neighbors doc stdout) = neighbors_or_raise (collected doc).
Proof.
  unfold calculate_neighbors, neighbors_or_raise. rewrite collect_voxels_closed.
  match goal with
  | |- context [outer_loop_or_raise ?a 0 ?a [] ?o] =>
      rewrite (outer_loop_or_raise_fst a a 0 [] [] o);
      destruct (outer_loop_or_raise a 0 a [] o) as [[rels|] out]
  end; reflexivity.
Qed.

(** A run of [calculate_neighbors] that returns, in closed form. *)
Lemma calculate_neighbors_closed (doc : Document num) (stdout : list (Line num)) :
  no_overflow (collected doc) ->
  calculate_neighbors doc stdout
  = (Some (neighbors_of (collected doc)), stdout ++ calculate_neighbors_lines doc).
Proof.
  intros Hno. unfold calculate_neighbors, calculate_neighbors_lines.
  rewrite collect_voxels_closed.
  rewrite outer_loop_or_raise_returns
    by (intros k v j o Hk Hj Hne; apply (Hno k j v o Hk Hj); exact Hne).
  rewrite outer_loop_stdout, outer_loop_neighbors_of.
  f_equal. rewrite <- !app_assoc. reflexivity.
Qed.

Lemma calculate_neighbors_Some (doc : Document num) (stdout stdout' : list (Line num))
    (rels : list (PyDict num)) :
  calculate_neighbors doc stdout = (Some rels, stdout') ->
  no_overflow (collected doc) /\ rels = neighbors_of (collected doc) /\
  stdout' = stdout ++ calculate_neighbors_lines doc.
Proof.
  intros Hrun.
  assert (Hfst : neighbors_or_raise (collected doc) = Some rels)
    by (rewrite <- (calculate_neighbors_fst doc stdout), Hrun; reflexivity).
  apply neighbors_or_raise_Some in Hfst. destruct Hfst as [Hno ->].
  rewrite (calculate_neighbors_closed doc stdout Hno) in Hrun.
  injection Hrun as <-. auto.
Qed.

(** What [calculate_neighbors] returns and prints depends on the document
    through the voxels collected and the layer lines only. *)
Lemma calculate_neighbors_ext (doc doc' : Document num) (stdout : list (Line num)) :
  collected doc = collected doc' ->
  layer_lines doc layers = layer_lines doc' layers ->
  calculate_neighbors doc stdout = calculate_neighbors doc' stdout.
Proof.
  intros Hc Hl. unfold calculate_neighbors.
  rewrite !collect_voxels_closed, Hc, Hl. reflexivity.
Qed.

(** The row written for a relationship dict: its four values, in the
    order of the field names. *)
Lemma dict_to_list_relationship (A B : Voxel num) :
  dict_to_list fieldnames (relationship A B) = Some (map snd (relationship A B)).
Proof. reflexivity. Qed.

Lemma writerows_relationships (relationships : list (PyDict num)) :
  Forall (fun r => exists A B : Voxel num, r = relationship A B) relationships ->
  writerows fieldnames relationships = Some (map (map snd) relationships).
Proof.
  induction 1 as [|r rest (A & B & ->) _ IH]; cbn [writerows]; [reflexivity|].
  now rewrite dict_to_list_relationship, IH.
Qed.

Lemma export_neighbors_closed (all_voxels : list (Voxel num)) (stdout : list (Line num)) :
  export_neighbors_to_csv (neighbors_of all_voxels) stdout
  = Some (path_join output_folder "voxel_neighbors.csv",
          {| csv_header := fieldnames;
             csv_rows := map (map snd) (neighbors_of all_voxels) |},
          stdout
            ++ [[Text LF; Text "[STEP 3] Exporting to: ";
                 Text (path_join output_folder "voxel_neighbors.csv")]]
            ++ [[Text "✅ Neighbor relationships exported!"]]).
Proof.
  unfold export_neighbors_to_csv. rewrite writerows_relationships.
  - now rewrite <- app_assoc.
  - eapply Forall_impl; [|apply neighbors_of_relationships].
    intros r (A & B & _ & _ & ->). eauto.
Qed.

(** A confirmed run in which no power raises, in closed form. *)
Lemma main_closed (doc : Document num) (stdout : list (Line num)) :
  no_overflow (collected doc) ->
  let relationships := neighbors_of (collected doc) in
  let csv_file := path_join output_folder "voxel_neighbors.csv" in
  main doc 6 stdout
  = Some {| run_stdout :=
              stdout ++ calculate_neighbors_lines doc
                ++ [[Text LF; Text "[STEP 3] Exporting to: "; Text csv_file]]
                ++ [[Text "✅ Neighbor relationships exported!"]]
                ++ summary_lines relationships csv_file;
            run_csv := Some (csv_file,
                             {| csv_header := fieldnames;
                                csv_rows := map (map snd) relationships |});
            run_message_box := Some (summary_message_box relationships csv_file) |}.
Proof.
  intros Hno relationships csv_file. unfold main. simpl Z.eqb. cbv iota.
  rewrite (calculate_neighbors_closed doc stdout Hno), export_neighbors_closed.
  fold relationships csv_file. f_equal. f_equal.
  rewrite <- !app_assoc. reflexivity.
Qed.


End Raising.

(** ** The script on binary64: the scenarios of the specification

    The loops without the exception first, then runs with it. *)

Section Binary64Runs.

Import Binary64 Scenarios.
Local Open Scope float_scope.

Example scenario_1_edges :
  neighbors_of scenario_1 = [edge "A" "B" "east" 1; edge "B" "A" "west" 1].
Proof. vm_compute. reflexivity. Qed.

Example scenario_2_edges :
  neighbors_of scenario_2 = [edge "A" "B" "above" 1; edge "B" "A" "below" 1].
Proof. vm_compute. reflexivity. Qed.

Example scenario_3_single_cell :
  neighbors_of [voxel_at "A" 0 0 0] = [].
Proof. reflexivity. Qed.

(** A pair at exactly the threshold is accepted, a pair beyond it is not. *)
Example threshold_boundary :
  neighbors_of [voxel_at "A" 0 0 0; voxel_at "B" 1.5 0 0; voxel_at "C" 0 1.75 0]
  = [edge "A" "B" "east" 1.5; edge "B" "A" "west" 1.5].
Proof. vm_compute. reflexivity. Qed.

(** The classifier at a few displacements: a vertical one, a horizontal
    tie (which goes to north or south), a zero distance. *)
Example determine_direction_down :
  determine_direction 0 0 (-1) 1 = "below".
Proof. vm_compute. reflexivity. Qed.

Example determine_direction_tie :
  determine_direction 1 1 0 (PrimFloat.sqrt 2) = "north" /\
  determine_direction (-1) (-1) 0 (PrimFloat.sqrt 2) = "south".
Proof. split; vm_compute; reflexivity. Qed.

Example determine_direction_degenerate :
  determine_direction 0 0 0 0 = "same".
Proof. vm_compute. reflexivity. Qed.

Example scenario_1_run :
  neighbors_or_raise scenario_1 = Some [edge "A" "B" "east" 1; edge "B" "A" "west" 1].
Proof. vm_compute. reflexivity. Qed.

(** A voxel 2^600 away aborts the run: the square of its displacement is
    out of range, OverflowError leaves [calculate_neighbors] and nothing
    is exported. *)
Example far_voxel_aborts :
  neighbors_or_raise far_cells = None /\
  main Documents.far_document 6 [] = None.
Proof. split; vm_compute; reflexivity. Qed.

End Binary64Runs.

(** ** The classifier in every arithmetic and on binary64 *)

Section ClassifierLabels.

Context {num : Type} `{PyFloat num}.

(** Whatever the arithmetic, the label is "same" when the distance tests
    equal to 0 and one of the six direction labels otherwise. *)
Lemma determine_direction_labels (dx dy dz distance : num) :
  (feq distance (of_int 0) = true /\ determine_direction dx dy dz distance = "same") \/
  (feq distance (of_int 0) = false /\
   In (determine_direction dx dy dz distance) six_labels).
Proof.
  unfold determine_direction, six_labels.
  destruct (feq distance (of_int 0)); [left; auto|right; split; [reflexivity|]].
  destruct (fgt (fdiv (fabs dz) distance) lit_0_7),
    (fgt (fdiv (fabs dx) distance) (fdiv (fabs dy) distance)),
    (fgt dx (of_int 0)), (fgt dy (of_int 0)), (fgt dz (of_int 0)); simpl; tauto.
Qed.

End ClassifierLabels.

(** ** C1: the adjacency test *)

Section Adjacency.

Context {num : Type} `{PyFloat num}.

(** C1, as the code has it: among registered voxels with pairwise distinct
    ids, in a run that returns, the edge from A to B is emitted exactly
    when the distance the script computes in floating point,
    (dx**2 + dy**2 + dz**2)**0.5, passes the test [distance <= 1.5]: a
    computed distance equal to the threshold gives an edge, a greater one
    gives none. *)
Theorem edge_iff_computed_distance_within_threshold
    (all_voxels : list (Voxel num)) (rels : list (PyDict num)) (A B : Voxel num) :
  neighbors_or_raise all_voxels = Some rels ->
  NoDup (map voxel_id all_voxels) ->
  In A all_voxels -> In B all_voxels -> A <> B ->
  ((exists r, In r rels /\
              dict_get r "from_voxel" = Some (PStr (voxel_id A)) /\
              dict_get r "to_voxel" = Some (PStr (voxel_id B))) <->
   fle (voxel_distance A B) ADJACENCY_THRESHOLD = true).
Proof.
  intros Hrun Hnd HA HB Hne.
  apply neighbors_or_raise_Some in Hrun. destruct Hrun as [_ ->].
  exact (emitted_iff_accepted all_voxels A B Hnd HA HB Hne).
Qed.

End Adjacency.

(** C1 as stated fails: B lies at an exact distance greater than the
    threshold from A (the square of the distance is 1.5^2 + 2^-60), and
    the edges between A and B are emitted: the sum of the squares rounds
    to 2.25 and the computed distance is 1.5. *)
Lemma edge_beyond_exact_threshold :
  neighbors_or_raise Scenarios.beyond_threshold
  = Some [Scenarios.edge "A" "B" "east" 1.5; Scenarios.edge "B" "A" "west" 1.5] /\
  exists q : Q,
    Exact.squared_distance (Scenarios.voxel_at "A" 0 0 0)
      (Scenarios.voxel_at "B" 1.5 0x1p-30 0) = Some q /\
    Exact.value ADJACENCY_THRESHOLD = Some (3 # 2)%Q /\
    ((3 # 2) * (3 # 2) < q)%Q.
Proof.
  split; [vm_compute; reflexivity|].
  eexists. split; [vm_compute; reflexivity|].
  split; [vm_compute; reflexivity|].
  reflexivity.
Qed.

Lemma edge_iff_computed_distance_within_threshold_witness :
  let A := Scenarios.voxel_at "A" 0 0 0 in
  let B := Scenarios.voxel_at "B" 1.5 0 0 in
  let C := Scenarios.voxel_at "C" 0 1.75 0 in
  let rels := [Scenarios.edge "A" "B" "east" 1.5; Scenarios.edge "B" "A" "west" 1.5] in
  neighbors_or_raise [A; B; C] = Some rels /\
  ((exists r, In r rels /\
              dict_get r "from_voxel" = Some (PStr "A") /\
              dict_get r "to_voxel" = Some (PStr "B")) <->
   fle (voxel_distance A B) ADJACENCY_THRESHOLD = true) /\
  ((exists r, In r rels /\
              dict_get r "from_voxel" = Some (PStr "A") /\
              dict_get r "to_voxel" = Some (PStr "C")) <->
   fle (voxel_distance A C) ADJACENCY_THRESHOLD = true) /\
  fle (voxel_distance A B) ADJACENCY_THRESHOLD = true /\
  fle (voxel_distance A C) ADJACENCY_THRESHOLD = false.
Proof.
  intros A B C rels.
  assert (Hrun : neighbors_or_raise [A; B; C] = Some rels) by (vm_compute; reflexivity).
  assert (Hnd : NoDup (map voxel_id [A; B; C])).
  { simpl. repeat constructor; simpl; intuition discriminate. }
  assert (HA : In A [A; B; C]) by (simpl; auto).
  assert (HB : In B [A; B; C]) by (simpl; auto).
  assert (HC : In C [A; B; C]) by (simpl; auto).
  assert (HAB : A <> B) by (intros E; apply (f_equal voxel_id) in E; discriminate).
  assert (HAC : A <> C) by (intros E; apply (f_equal voxel_id) in E; discriminate).
  split; [exact Hrun|].
  split; [exact (edge_iff_computed_distance_within_threshold _ _ A B Hrun Hnd HA HB HAB)|].
  split; [exact (edge_iff_computed_distance_within_threshold _ _ A C Hrun Hnd HA HC HAC)|].
  split; vm_compute; reflexivity.
Defined.

(** ** C3 and C10: the direction classifier on binary64 *)

Section ClassifierBinary64.

Import Binary64.
Local Open Scope float_scope.

Context {libm : Libm}.



End ClassifierBinary64.


Section ScalingBinary64.

Import Binary64.
Local Open Scope float_scope.

Context {libm : Libm}.

(** A quotient does not change when the exponents of its two terms move
    together. *)
Lemma SFdiv_shift_exponent (k : Z) (x y : spec_float) :
  SF64div (shift_exponent k x) (shift_exponent k y) = SF64div x y.
Proof.
  destruct x as [sx|sx| |sx mx ex], y as [sy|sy| |sy my ey]; try reflexivity.
  unfold SF64div, SFdiv, shift_exponent, SFdiv_core_binary.
  replace (Zdigits2 (Z.pos mx) + (ex + k) - (Zdigits2 (Z.pos my) + (ey + k)))%Z
    with (Zdigits2 (Z.pos mx) + ex - (Zdigits2 (Z.pos my) + ey))%Z by lia.
  replace (ex + k - (ey + k))%Z with (ex - ey)%Z by lia.
  reflexivity.
Qed.

Lemma SFabs_shift_exponent (k : Z) (x : spec_float) :
  SFabs (shift_exponent k x) = shift_exponent k (SFabs x).
Proof. destruct x; reflexivity. Qed.

Lemma SFltb_zero_shift_exponent (k : Z) (x : spec_float) :
  SFltb (S754_zero false) (shift_exponent k x) = SFltb (S754_zero false) x.
Proof. destruct x; reflexivity. Qed.

Lemma SFeqb_zero_shift_exponent (k : Z) (x : spec_float) :
  SFeqb (shift_exponent k x) (S754_zero false) = SFeqb x (S754_zero false).
Proof. destruct x; reflexivity. Qed.

(** The three tests of the classifier on a scaled number. *)
Lemma scaled_quotient (k : Z) (a a' distance distance' : float) :
  Prim2SF a' = shift_exponent k (Prim2SF a) ->
  Prim2SF distance' = shift_exponent k (Prim2SF distance) ->
  abs a' / distance' = abs a / distance.
Proof.
  intros Ha Hd. apply Prim2SF_inj.
  rewrite !FloatAxioms.div_spec, !FloatAxioms.abs_spec, Ha, Hd, SFabs_shift_exponent.
  apply SFdiv_shift_exponent.
Qed.

Lemma scaled_sign_test (k : Z) (a a' : float) :
  Prim2SF a' = shift_exponent k (Prim2SF a) -> (0 <? a') = (0 <? a).
Proof.
  intros Ha. rewrite !FloatAxioms.ltb_spec, Ha.
  apply SFltb_zero_shift_exponent.
Qed.

Lemma scaled_zero_test (k : Z) (a a' : float) :
  Prim2SF a' = shift_exponent k (Prim2SF a) -> (a' =? 0) = (a =? 0).
Proof.
  intros Ha. rewrite !FloatAxioms.eqb_spec, Ha.
  apply SFeqb_zero_shift_exponent.
Qed.

(** C10, as the code has it: the label does not change when the
    displacement and the distance are multiplied by one factor [c] and the
    four products are exact, each having the sign and the digits of the
    number it scales with the exponent moved by one and the same [k] (a
    multiplication by the power of two 2^k that neither overflows nor
    leaves the normal range). *)
Theorem determine_direction_scale_invariant (k : Z) (c dx dy dz distance : float) :
  Prim2SF (c * dx) = shift_exponent k (Prim2SF dx) ->
  Prim2SF (c * dy) = shift_exponent k (Prim2SF dy) ->
  Prim2SF (c * dz) = shift_exponent k (Prim2SF dz) ->
  Prim2SF (c * distance) = shift_exponent k (Prim2SF distance) ->
  determine_direction (c * dx) (c * dy) (c * dz) (c * distance)
  = determine_direction dx dy dz distance.
Proof.
  intros Hx Hy Hz Hd. unfold determine_direction, fgt.
  cbn [feq flt fdiv fabs of_int python_float].
  change (float_of_Z 0) with 0.
  rewrite (scaled_zero_test k distance (c * distance) Hd).
  rewrite (scaled_quotient k dx (c * dx) distance (c * distance) Hx Hd).
  rewrite (scaled_quotient k dy (c * dy) distance (c * distance) Hy Hd).
  rewrite (scaled_quotient k dz (c * dz) distance (c * distance) Hz Hd).
  rewrite (scaled_sign_test k dx (c * dx) Hx).
  rewrite (scaled_sign_test k dy (c * dy) Hy).
  rewrite (scaled_sign_test k dz (c * dz) Hz).
  reflexivity.
Qed.

End ScalingBinary64.

(** C10 as stated fails: the displacement (1, 0x1.fffffffffffffp-1, 0.5)
    with the distance 1.5 is labelled north (the quotients of dx and dy
    round to one float), and its multiple by 3 is labelled east. *)
Lemma scaling_by_three_changes_label :
  let y := 0x1.fffffffffffffp-1%float in
  (0 <? 1.5)%float = true /\ (0 <? 3)%float = true /\
  determine_direction 1%float y 0.5%float 1.5%float = "north" /\
  determine_direction (3 * 1)%float (3 * y)%float (3 * 0.5)%float (3 * 1.5)%float = "east".
Proof. repeat split; vm_compute; reflexivity. Qed.

Lemma determine_direction_scale_invariant_witness :
  let y := 0x1.fffffffffffffp-1%float in
  determine_direction (4 * 1)%float (4 * y)%float (4 * 0.5)%float (4 * 1.5)%float
  = determine_direction 1%float y 0.5%float 1.5%float /\
  determine_direction (4 * 1)%float (4 * y)%float (4 * 0.5)%float (4 * 1.5)%float = "north".
Proof.
  intros y. split; [|vm_compute; reflexivity].
  apply (determine_direction_scale_invariant 2 4%float 1%float y 0.5%float 1.5%float);
    vm_compute; reflexivity.
Defined.

(** ** C4: no self-edges *)

Section NoSelfEdges.

Context {num : Type} `{PyFloat num}.

(** C4: when the ids of the registered voxels are pairwise distinct, no
    relationship has the same id as [from_voxel] and as [to_voxel]. *)
Theorem no_self_edges (all_voxels : list (Voxel num)) :
  NoDup (map voxel_id all_voxels) ->
  forall r, In r (neighbors_of all_voxels) ->
            dict_get r "from_voxel" <> dict_get r "to_voxel".
Proof.
  intros Hnd r Hr. apply in_neighbors_of in Hr.
  destruct Hr as (i & j & v & o & Hi & Hj & Hne & _ & ->).
  rewrite relationship_from, relationship_to. intros Heq.
  apply Hne. apply (NoDup_map_injective voxel_id all_voxels Hnd i j v o Hi Hj).
  congruence.
Qed.

End NoSelfEdges.

Lemma no_self_edges_witness :
  let r := Scenarios.edge "A" "B" "east" 1%float in
  NoDup (map voxel_id Scenarios.scenario_1) /\
  In r (neighbors_of Scenarios.scenario_1) /\
  dict_get r "from_voxel" <> dict_get r "to_voxel".
Proof.
  assert (Hnd : NoDup (map voxel_id Scenarios.scenario_1)).
  { simpl. repeat constructor; simpl; intuition discriminate. }
  assert (Hin : In (Scenarios.edge "A" "B" "east" 1%float)
                   (neighbors_of Scenarios.scenario_1)).
  { rewrite scenario_1_edges. now left. }
  exact (conj Hnd (conj Hin (no_self_edges Scenarios.scenario_1 Hnd _ Hin))).
Defined.

(** ** C8: the labels of the emitted edges *)

Section Labels.

Context {num : Type} `{PyFloat num}.

(** C8, as the code has it: in a run that returns, every emitted edge
    joins two registered voxels whose computed distance passes the
    threshold test, and its label is one of the six direction labels when
    that computed distance is not 0, and the seventh label "same" when it
    is 0. *)
Theorem emitted_labels (all_voxels : list (Voxel num)) (rels : list (PyDict num))
    (r : PyDict num) :
  neighbors_or_raise all_voxels = Some rels ->
  In r rels ->
  exists A B label,
    In A all_voxels /\ In B all_voxels /\
    dict_get r "from_voxel" = Some (PStr (voxel_id A)) /\
    dict_get r "to_voxel" = Some (PStr (voxel_id B)) /\
    fle (voxel_distance A B) ADJACENCY_THRESHOLD = true /\
    dict_get r "direction" = Some (PStr label) /\
    ((feq (voxel_distance A B) (of_int 0) = true /\ label = "same") \/
     (feq (voxel_distance A B) (of_int 0) = false /\ In label six_labels)).
Proof.
  intros Hrun Hr. apply neighbors_or_raise_Some in Hrun. destruct Hrun as [_ ->].
  apply in_neighbors_of in Hr. destruct Hr as (i & j & A & B & Hi & Hj & _ & Hle & ->).
  exists A, B,
    (determine_direction (delta_x A B) (delta_y A B) (delta_z A B) (voxel_distance A B)).
  split; [eauto using nth_error_In|]. split; [eauto using nth_error_In|].
  split; [reflexivity|]. split; [reflexivity|]. split; [exact Hle|].
  split; [reflexivity|]. apply determine_direction_labels.
Qed.

End Labels.

(** C8 as stated fails: two voxels with different ids at one position are
    joined by edges labelled "same", which is none of the six labels; and
    so are two voxels at different positions whose displacement is so
    small that its square underflows to 0. *)
Lemma coincident_cells_label_same :
  neighbors_or_raise Scenarios.coincident_cells
  = Some [Scenarios.edge "A" "B" "same" 0; Scenarios.edge "B" "A" "same" 0] /\
  neighbors_or_raise Scenarios.underflow_cells
  = Some [Scenarios.edge "A" "B" "same" 0; Scenarios.edge "B" "A" "same" 0] /\
  ~ In "same" six_labels.
Proof.
  split; [vm_compute; reflexivity|]. split; [vm_compute; reflexivity|].
  simpl. intuition discriminate.
Qed.

Lemma emitted_labels_witness :
  exists A B label,
    In A Scenarios.scenario_1 /\ In B Scenarios.scenario_1 /\
    dict_get (Scenarios.edge "A" "B" "east" 1) "from_voxel" = Some (PStr (voxel_id A)) /\
    dict_get (Scenarios.edge "A" "B" "east" 1) "to_voxel" = Some (PStr (voxel_id B)) /\
    fle (voxel_distance A B) ADJACENCY_THRESHOLD = true /\
    dict_get (Scenarios.edge "A" "B" "east" 1) "direction" = Some (PStr label) /\
    ((feq (voxel_distance A B) (of_int 0) = true /\ label = "same") \/
     (feq (voxel_distance A B) (of_int 0) = false /\ In label six_labels)).
Proof.
  apply (emitted_labels Scenarios.scenario_1
           [Scenarios.edge "A" "B" "east" 1; Scenarios.edge "B" "A" "west" 1]).
  - vm_compute. reflexivity.
  - now left.
Defined.

(** ** Binary64: opposite differences

    [b - a] is the opposite of [a - b], unless both are +0; the absolute
    value, the square and the tests of the classifier follow. *)

Section OppositeDifferences.

Import Binary64.
Local Open Scope float_scope.

Lemma binary_round_aux_cases (s : bool) (m e : Z) (l : location) :
  binary_round_aux prec emax s m e l = S754_zero s \/
  binary_round_aux prec emax s m e l = S754_infinity s \/
  binary_round_aux prec emax s m e l = S754_nan \/
  exists m' e', binary_round_aux prec emax s m e l = S754_finite s m' e'.
Proof.
  unfold binary_round_aux.
  destruct (shr_fexp prec emax m e l) as [mrs' e'].
  destruct (shr_fexp prec emax _ e' loc_Exact) as [mrs'' e''].
  destruct (shr_m mrs'') as [|p|p]; [now left| |now right; right; left].
  destruct (e'' <=? emax - prec)%Z; [right; right; right; eauto|now right; left].
Qed.

Lemma binary_round_aux_opp (s : bool) (m e : Z) (l : location) :
  binary_round_aux prec emax (negb s) m e l = SFopp (binary_round_aux prec emax s m e l).
Proof.
  unfold binary_round_aux.
  destruct (shr_fexp prec emax m e l) as [mrs' e'].
  destruct (shr_fexp prec emax _ e' loc_Exact) as [mrs'' e''].
  destruct (shr_m mrs'') as [|p|p]; [reflexivity| |reflexivity].
  destruct (e'' <=? emax - prec)%Z; reflexivity.
Qed.

Lemma binary_round_opp (s : bool) (m : positive) (e : Z) :
  binary_round prec emax (negb s) m e = SFopp (binary_round prec emax s m e).
Proof.
  unfold binary_round.
  destruct (shl_align m e _) as [mz ez]. apply binary_round_aux_opp.
Qed.

Lemma binary_normalize_opp (m e : Z) :
  opposite (binary_normalize prec emax m e false)
           (binary_normalize prec emax (- m) e false).
Proof.
  destruct m as [|p|p]; cbn [Z.opp binary_normalize].
  - right. split; reflexivity.
  - left. apply (binary_round_opp false).
  - left. rewrite (binary_round_opp true p e : binary_round prec emax false p e = _).
    reflexivity.
Qed.

Lemma SFsub_opposite (a b : spec_float) : opposite (SF64sub a b) (SF64sub b a).
Proof.
  destruct a as [sa|sa| |sa ma ea]; destruct b as [sb|sb| |sb mb eb];
    try (unfold opposite; try destruct sa; try destruct sb; cbn; auto; fail).
  unfold SF64sub, SFsub. rewrite (Z.min_comm eb ea).
  match goal with
  | |- context [binary_normalize prec emax (?x - ?y) ?e false] =>
      replace (y - x)%Z with (- (x - y))%Z by lia;
      exact (binary_normalize_opp (x - y) e)
  end.
Qed.

Lemma sub_opposite (a b : float) : opposite (Prim2SF (a - b)) (Prim2SF (b - a)).
Proof. rewrite !FloatAxioms.sub_spec. apply SFsub_opposite. Qed.

Lemma SFabs_opposite (x x' : spec_float) : opposite x x' -> SFabs x' = SFabs x.
Proof. intros [->|[-> ->]]; [now destruct x|reflexivity]. Qed.

Lemma abs_opposite (a a' : float) :
  opposite (Prim2SF a) (Prim2SF a') -> abs a' = abs a.
Proof.
  intros Hop. apply Prim2SF_inj. rewrite !FloatAxioms.abs_spec.
  now apply SFabs_opposite.
Qed.

Lemma is_nan_opposite (a a' : float) :
  opposite (Prim2SF a) (Prim2SF a') -> is_nan a' = is_nan a.
Proof.
  intros Hop. unfold is_nan. rewrite !FloatAxioms.eqb_spec.
  destruct Hop as [->|[-> ->]]; [|reflexivity].
  destruct (Prim2SF a) as [s|s| |s m e]; try destruct s; try reflexivity;
    unfold SFeqb, SFcompare, SFopp, negb;
    rewrite ?Z.compare_refl, ?Pos.compare_cont_refl; reflexivity.
Qed.

Lemma eqb_zero_opposite (a a' : float) :
  opposite (Prim2SF a) (Prim2SF a') -> (a' =? 0) = (a =? 0).
Proof.
  intros Hop. rewrite !FloatAxioms.eqb_spec.
  destruct Hop as [->|[-> ->]]; [|reflexivity].
  destruct (Prim2SF a) as [s|s| |s m e]; try destruct s; reflexivity.
Qed.

Lemma is_nan_Prim2SF (a : float) : is_nan a = true -> Prim2SF a = S754_nan.
Proof.
  unfold is_nan. rewrite FloatAxioms.eqb_spec.
  destruct (Prim2SF a) as [s|s| |s m e]; try destruct s; try reflexivity;
    unfold SFeqb, SFcompare; rewrite ?Z.compare_refl, ?Pos.compare_cont_refl;
    discriminate.
Qed.

Context {libm : Libm}.

(** The square, and whether it raises, do not depend on the direction of
    the difference. *)
Lemma float_pow_2_opposite (a a' : float) :
  opposite (Prim2SF a) (Prim2SF a') -> float_pow_2 a' = float_pow_2 a.
Proof.
  intros Hop. unfold float_pow_2, is_infinity.
  rewrite (is_nan_opposite a a' Hop), (abs_opposite a a' Hop),
    (eqb_zero_opposite a a' Hop).
  destruct (is_nan a) eqn:Hnan; [|reflexivity].
  f_equal. apply Prim2SF_inj. apply is_nan_Prim2SF in Hnan.
  rewrite Hnan in *. now destruct Hop as [->|[Hz _]].
Qed.

(** The root of the script is not negative when libm's is not. *)
Lemma float_pow_half_not_negative (a : float) :
  (forall x, (pow_half x <? 0) = false) -> (float_pow_half a <? 0) = false.
Proof.
  intros Hlibm. unfold float_pow_half.
  destruct (is_nan a) eqn:Hnan.
  { rewrite FloatAxioms.ltb_spec, (is_nan_Prim2SF a Hnan). reflexivity. }
  destruct (is_infinity a); [reflexivity|].
  destruct (a =? 0); [reflexivity|].
  destruct (a =? 1); [reflexivity|]. apply Hlibm.
Qed.

End OppositeDifferences.

Section ClassifierSymmetry.

Import Binary64.
Local Open Scope float_scope.

Lemma SFltb_zero_opposite (x x' : spec_float) :
  opposite x x' ->
  if decides x
  then SFltb (S754_zero false) x' = negb (SFltb (S754_zero false) x)
  else SFltb (S754_zero false) x = false /\ SFltb (S754_zero false) x' = false.
Proof.
  intros [->|[-> ->]]; [|cbn; auto].
  destruct x as [s|s| |s m e]; try destruct s; cbn; auto.
Qed.

(** A quotient above a positive bound has a numerator other than zero. *)
Lemma quotient_above_decides (c x d : spec_float) :
  SFltb (S754_zero false) c = true ->
  SFltb c (SF64div (SFabs x) d) = true ->
  decides x = true.
Proof.
  intros Hc Hq. destruct x as [s|s| |s m e]; try reflexivity; exfalso.
  - destruct d as [sd|sd| |sd md ed], c as [sc|sc| |sc mc ec];
      try destruct sc; try destruct sd; cbn in *; discriminate.
  - destruct d as [sd|sd| |sd md ed], c as [sc|sc| |sc mc ec];
      try destruct sc; cbn in *; discriminate.
Qed.

(** Over a positive divisor, a quotient above another has a numerator
    other than zero. *)
Lemma quotient_order_decides (x y d : spec_float) :
  SFltb d (S754_zero false) = false ->
  SFeqb d (S754_zero false) = false ->
  SFltb (SF64div (SFabs y) d) (SF64div (SFabs x) d) = true ->
  decides x = true.
Proof.
  intros Hneg Hzero Hq. destruct x as [s|s| |s m e]; try reflexivity; exfalso.
  - destruct d as [sd|sd| |sd md ed]; try destruct sd; try discriminate.
    + destruct y as [sy|sy| |sy my ey]; cbn in Hq; discriminate.
    + destruct (SF64div (SFabs y) S754_nan); cbn in Hq; discriminate.
    + destruct y as [sy|sy| |sy my ey]; try (cbn in Hq; discriminate).
      unfold SF64div, SFdiv, SFabs in Hq. cbn [xorb] in Hq.
      destruct (SFdiv_core_binary prec emax (Z.pos my) ey (Z.pos md) ed) as [[mz ez] lz].
      destruct (binary_round_aux_cases false mz ez lz) as [Hr|[Hr|[Hr|(m' & e' & Hr)]]];
        rewrite Hr in Hq; cbn in Hq; discriminate.
  - remember (SF64div (SFabs y) d) as q eqn:Hdef. clear Hdef.
    destruct q as [sq|sq| |sq mq eq]; cbn in Hq; discriminate.
Qed.

Lemma ltb_zero_spec (a : float) : (0 <? a) = SFltb (S754_zero false) (Prim2SF a).
Proof. now rewrite FloatAxioms.ltb_spec. Qed.

Context {libm : Libm}.

(** The labels of a displacement and of its opposite, for a distance that
    is not negative: both "same" when the distance is 0; else opposite
    labels, unless the label is decided by the sign of a dy that is
    positive in neither direction, when both are "south". *)
Lemma determine_direction_opposite (dx dy dz dx' dy' dz' distance : float) :
  opposite (Prim2SF dx) (Prim2SF dx') ->
  opposite (Prim2SF dy) (Prim2SF dy') ->
  opposite (Prim2SF dz) (Prim2SF dz') ->
  (distance <? 0) = false ->
  ((distance =? 0) = true /\
   determine_direction dx dy dz distance = "same" /\
   determine_direction dx' dy' dz' distance = "same") \/
  antipodal (determine_direction dx dy dz distance)
            (determine_direction dx' dy' dz' distance) \/
  (determine_direction dx dy dz distance = "south" /\
   determine_direction dx' dy' dz' distance = "south" /\
   (0 <? dy) = false /\ (0 <? dy') = false).
Proof.
  intros Hx Hy Hz Hneg. unfold determine_direction, fgt.
  cbn [feq flt fdiv fabs of_int python_float]. change (float_of_Z 0) with 0.
  rewrite (abs_opposite dx dx' Hx), (abs_opposite dy dy' Hy), (abs_opposite dz dz' Hz).
  destruct (distance =? 0) eqn:Hzero; [left; auto|right].
  pose proof (SFltb_zero_opposite _ _ Hx) as Hsx.
  pose proof (SFltb_zero_opposite _ _ Hy) as Hsy.
  pose proof (SFltb_zero_opposite _ _ Hz) as Hsz.
  rewrite <- !ltb_zero_spec in Hsx, Hsy, Hsz.
  destruct (lit_0_7 <? abs dz / distance) eqn:H1.
  { rewrite FloatAxioms.ltb_spec, FloatAxioms.div_spec, FloatAxioms.abs_spec in H1.
    apply quotient_above_decides in H1; [|reflexivity].
    rewrite H1 in Hsz. rewrite Hsz. left. destruct (0 <? dz); constructor. }
  destruct (abs dy / distance <? abs dx / distance) eqn:H2.
  { rewrite FloatAxioms.ltb_spec, !FloatAxioms.div_spec, !FloatAxioms.abs_spec in H2.
    rewrite FloatAxioms.ltb_spec in Hneg. rewrite FloatAxioms.eqb_spec in Hzero.
    apply quotient_order_decides in H2; [|exact Hneg|exact Hzero].
    rewrite H2 in Hsx. rewrite Hsx. left. destruct (0 <? dx); constructor. }
  destruct (decides (Prim2SF dy)).
  - rewrite Hsy. left. destruct (0 <? dy); constructor.
  - destruct Hsy as [Hsy Hsy']. rewrite Hsy, Hsy'. right. auto.
Qed.

End ClassifierSymmetry.

(** ** C2: symmetry of the edges *)

Section Symmetry.

Import Binary64.
Local Open Scope float_scope.

Context {libm : Libm}.

Lemma delta_opposite (A B : Voxel float) :
  opposite (Prim2SF (delta_x A B)) (Prim2SF (delta_x B A)) /\
  opposite (Prim2SF (delta_y A B)) (Prim2SF (delta_y B A)) /\
  opposite (Prim2SF (delta_z A B)) (Prim2SF (delta_z B A)).
Proof. repeat split; apply sub_opposite. Qed.

(** The computed distance, and whether computing it raises, are the same
    in the two directions, whatever libm's [pow] returns. *)
Lemma voxel_distance_sym (A B : Voxel float) :
  voxel_distance B A = voxel_distance A B /\ raises B A = raises A B.
Proof.
  destruct (delta_opposite A B) as (Hx & Hy & Hz).
  unfold voxel_distance, distance3, raises.
  cbn [fsquare overflows python_float].
  now rewrite (float_pow_2_opposite _ _ Hx), (float_pow_2_opposite _ _ Hy),
    (float_pow_2_opposite _ _ Hz).
Qed.

Lemma accepts_sym (A B : Voxel float) : accepts A B = accepts B A.
Proof. unfold accepts. now rewrite (proj1 (voxel_distance_sym A B)). Qed.

Lemma voxel_distance_not_negative (A B : Voxel float) :
  (forall x, (pow_half x <? 0) = false) -> (voxel_distance A B <? 0) = false.
Proof. intros Hlibm. now apply float_pow_half_not_negative. Qed.

(** C2, as the code has it, on binary64 with a libm whose square root is
    not negative: among registered voxels with pairwise distinct ids, in a
    run that returns, the computed distance is the same in the two
    directions, so that the edge from A to B is emitted exactly when the
    edge from B to A is, and the two carry the same rounded distance.
    Their labels are both "same" when the computed distance is 0;
    otherwise they are opposite (above and below, east and west, north
    and south), unless the label falls to the north or south test and the
    y displacement is positive in neither direction, when both are
    "south". *)
Theorem edges_symmetric (all_voxels : list (Voxel float)) (rels : list (PyDict float))
    (A B : Voxel float) :
  (forall x, (pow_half x <? 0) = false) ->
  neighbors_or_raise all_voxels = Some rels ->
  NoDup (map voxel_id all_voxels) ->
  In A all_voxels -> In B all_voxels -> A <> B ->
  voxel_distance B A = voxel_distance A B /\
  ((exists r, In r rels /\
              dict_get r "from_voxel" = Some (PStr (voxel_id A)) /\
              dict_get r "to_voxel" = Some (PStr (voxel_id B))) <->
   (exists r', In r' rels /\
               dict_get r' "from_voxel" = Some (PStr (voxel_id B)) /\
               dict_get r' "to_voxel" = Some (PStr (voxel_id A)))) /\
  forall r r',
    In r rels -> In r' rels ->
    dict_get r "from_voxel" = Some (PStr (voxel_id A)) ->
    dict_get r "to_voxel" = Some (PStr (voxel_id B)) ->
    dict_get r' "from_voxel" = Some (PStr (voxel_id B)) ->
    dict_get r' "to_voxel" = Some (PStr (voxel_id A)) ->
    dict_get r "distance" = dict_get r' "distance" /\
    exists l l',
      dict_get r "direction" = Some (PStr l) /\
      dict_get r' "direction" = Some (PStr l') /\
      (((voxel_distance A B =? 0) = true /\ l = "same" /\ l' = "same") \/
       antipodal l l' \/
       (l = "south" /\ l' = "south" /\
        (0 <? delta_y A B) = false /\ (0 <? delta_y B A) = false)).
Proof.
  intros Hlibm Hrun Hnd HA HB Hne.
  apply neighbors_or_raise_Some in Hrun. destruct Hrun as [_ ->].
  assert (Hne' : B <> A) by congruence.
  destruct (voxel_distance_sym A B) as [Hd _].
  split; [exact Hd|]. split.
  - fold (emitted all_voxels (voxel_id A) (voxel_id B)).
    fold (emitted all_voxels (voxel_id B) (voxel_id A)).
    rewrite (emitted_iff_accepted all_voxels A B Hnd HA HB Hne).
    rewrite (emitted_iff_accepted all_voxels B A Hnd HB HA Hne').
    now rewrite Hd.
  - intros r r' Hr Hr' Hfrom Hto Hfrom' Hto'.
    destruct (relationship_of_ids all_voxels A B r Hnd HA HB Hr Hfrom Hto) as [-> _].
    destruct (relationship_of_ids all_voxels B A r' Hnd HB HA Hr' Hfrom' Hto') as [-> _].
    rewrite !relationship_distance, !relationship_direction, Hd.
    split; [reflexivity|].
    do 2 eexists. split; [reflexivity|]. split; [reflexivity|].
    destruct (delta_opposite A B) as (Hx & Hy & Hz).
    exact (determine_direction_opposite _ _ _ _ _ _ _ Hx Hy Hz
             (voxel_distance_not_negative A B Hlibm)).
Qed.

End Symmetry.

(** The square root of IEEE 754 is not negative. *)
Lemma sqrt_not_negative (x : float) : (Binary64.pow_half x <? 0)%float = false.
Proof.
  change (Binary64.pow_half x) with (PrimFloat.sqrt x).
  rewrite FloatAxioms.ltb_spec, FloatAxioms.sqrt_spec.
  destruct (Prim2SF x) as [s|s| |s m e]; try destruct s; try reflexivity.
  unfold SF64sqrt, SFsqrt.
  destruct (SFsqrt_core_binary prec emax (Z.pos m) e) as [[mz ez] lz].
  destruct (binary_round_aux_cases false mz ez lz) as [Hr|[Hr|[Hr|(m' & e' & Hr)]]];
    rewrite Hr; reflexivity.
Qed.

(** C2 as stated fails: two voxels with different ids at one position are
    joined by two edges labelled "same", which are not opposite labels;
    and so are two voxels at different positions whose displacement is so
    small that its square underflows to 0. *)
Lemma coincident_cells_not_antipodal :
  neighbors_or_raise Scenarios.coincident_cells
  = Some [Scenarios.edge "A" "B" "same" 0; Scenarios.edge "B" "A" "same" 0] /\
  neighbors_or_raise Scenarios.underflow_cells
  = Some [Scenarios.edge "A" "B" "same" 0; Scenarios.edge "B" "A" "same" 0] /\
  ~ antipodal "same" "same".
Proof.
  split; [vm_compute; reflexivity|]. split; [vm_compute; reflexivity|].
  intros Hanti. inversion Hanti.
Qed.

Lemma edges_symmetric_witness :
  let A := Scenarios.voxel_at "A" 0 0 0 in
  let B := Scenarios.voxel_at "B" 1 0 0 in
  let r := Scenarios.edge "A" "B" "east" 1 in
  let r' := Scenarios.edge "B" "A" "west" 1 in
  neighbors_or_raise Scenarios.scenario_1 = Some [r; r'] /\
  dict_get r "distance" = dict_get r' "distance" /\
  exists l l',
    dict_get r "direction" = Some (PStr l) /\
    dict_get r' "direction" = Some (PStr l') /\
    (((voxel_distance A B =? 0)%float = true /\ l = "same" /\ l' = "same") \/
     antipodal l l' \/
     (l = "south" /\ l' = "south" /\
      (0 <? delta_y A B)%float = false /\ (0 <? delta_y B A)%float = false)).
Proof.
  intros A B r r'.
  assert (Hrun : neighbors_or_raise Scenarios.scenario_1 = Some [r; r'])
    by (vm_compute; reflexivity).
  assert (Hnd : NoDup (map voxel_id Scenarios.scenario_1)).
  { simpl. repeat constructor; simpl; intuition discriminate. }
  assert (HA : In A Scenarios.scenario_1) by (simpl; auto).
  assert (HB : In B Scenarios.scenario_1) by (simpl; auto).
  assert (HAB : A <> B) by (intros E; apply (f_equal voxel_id) in E; discriminate).
  split; [exact Hrun|].
  destruct (edges_symmetric Scenarios.scenario_1 [r; r'] A B
              sqrt_not_negative Hrun Hnd HA HB HAB) as (_ & _ & Hpair).
  apply (Hpair r r'); simpl; auto.
Defined.

(** ** C5 and C7: registration *)

Section Registration.

Context {num : Type} `{PyFloat num}.

(** The two tests of the collection step decide what is registered. *)
Lemma voxel_of_object_valid (obj : RhinoObject num) :
  (valid_record obj = true /\
   exists v, voxel_of_object obj = Some v /\ voxel_id v = record_id obj) \/
  (valid_record obj = false /\ voxel_of_object obj = None).
Proof.
  unfold valid_record, voxel_of_object, record_id.
  destruct (GetUserText_voxel_id obj) as [[|c id]|]; [now right| |now right].
  destruct (BoundingBox obj) as [bbox|]; [|now right].
  destruct (Nat.leb_spec 7 (List.length bbox)) as [Hlen|Hlen]; [|now right].
  destruct (nth_error bbox 0) as [b0|] eqn:H0;
    [|apply nth_error_None in H0; lia].
  destruct (nth_error bbox 6) as [b6|] eqn:H6;
    [|apply nth_error_None in H6; lia].
  left. split; [reflexivity|]. eexists. split; reflexivity.
Qed.

Lemma valid_record_false_iff (obj : RhinoObject num) :
  valid_record obj = false <-> voxel_of_object obj = None.
Proof.
  destruct (voxel_of_object_valid obj) as [[Hv (v & Hsome & _)]|[Hv Hnone]];
    rewrite ?Hv, ?Hsome, ?Hnone; split; intros; reflexivity || discriminate.
Qed.

Lemma registered_ids (objects : list (RhinoObject num)) :
  map voxel_id (registered objects) = map record_id (filter valid_record objects).
Proof.
  induction objects as [|obj rest IH]; [reflexivity|].
  unfold registered in *. cbn [flat_map filter]. rewrite map_app, IH.
  destruct (voxel_of_object_valid obj) as [[Hv (v & Hsome & Hid)]|[Hv Hnone]].
  - rewrite Hv, Hsome. cbn [map app]. now rewrite Hid.
  - rewrite Hv, Hnone. reflexivity.
Qed.

Lemma registered_filter_valid (objects : list (RhinoObject num)) :
  registered (filter valid_record objects) = registered objects.
Proof.
  induction objects as [|obj rest IH]; [reflexivity|].
  cbn [filter]. destruct (voxel_of_object_valid obj) as [[Hv _]|[Hv Hnone]]; rewrite Hv.
  - unfold registered in *. cbn [flat_map]. now rewrite IH.
  - rewrite IH. unfold registered. cbn [flat_map]. now rewrite Hnone.
Qed.

Lemma collected_without_invalid (doc : Document num) :
  collected (without_invalid doc) = collected doc.
Proof.
  unfold collected, without_invalid.
  induction layers as [|layer rest IH]; [reflexivity|].
  cbn [flat_map]. now rewrite registered_filter_valid, IH.
Qed.

Lemma collected_ids (doc : Document num) :
  map voxel_id (collected doc)
  = flat_map (fun layer => map record_id (filter valid_record (doc layer))) layers.
Proof.
  unfold collected. induction layers as [|layer rest IH]; [reflexivity|].
  cbn [flat_map]. now rewrite map_app, registered_ids, IH.
Qed.

(** C5, as the code has it.  Registration keeps every record that has a
    non-empty id and a bounding box of at least seven corners, whether or
    not another record has its id: the ids of the voxels collected are
    the ids of these records, layer by layer in input order, duplicates
    included.  Each of them takes part in the neighbour computation: in a
    run that returns, any two voxels collected at different places of the
    list whose computed distance passes the threshold test are joined by
    an edge, whatever their ids.  And no warning is issued: the
    collection step prints its header, the object count of each layer
    that has objects, and the total. *)
Theorem every_valid_record_registered (doc : Document num) (stdout : list (Line num)) :
  let all_voxels := fst (collect_voxels doc stdout) in
  map voxel_id all_voxels
  = flat_map (fun layer => map record_id (filter valid_record (doc layer))) layers /\
  (forall rels stdout',
      calculate_neighbors doc stdout = (Some rels, stdout') ->
      forall i j A B,
        nth_error all_voxels i = Some A -> nth_error all_voxels j = Some B -> i <> j ->
        fle (voxel_distance A B) ADJACENCY_THRESHOLD = true ->
        exists r, In r rels /\
                  dict_get r "from_voxel" = Some (PStr (voxel_id A)) /\
                  dict_get r "to_voxel" = Some (PStr (voxel_id B))) /\
  snd (collect_voxels doc stdout)
  = stdout
      ++ [[Text LF; Text "[STEP 1] Collecting all voxels from all layers..."]]
      ++ flat_map (fun layer =>
                     match doc layer with
                     | [] => []
                     | _ :: _ => [[Text "  "; Text layer; Text ": ";
                                   Int (List.length (doc layer)); Text " voxels"]]
                     end) layers
      ++ [[Text LF; Text "  Total voxels collected: "; Int (List.length all_voxels)]].
Proof.
  rewrite collect_voxels_closed. cbn [fst snd]. cbv zeta.
  split; [apply collected_ids|]. split; [|reflexivity].
  intros rels stdout' Hrun i j A B Hi Hj Hne Hle.
  apply calculate_neighbors_Some in Hrun. destruct Hrun as (_ & -> & _).
  exists (relationship A B). split; [|split; reflexivity].
  apply in_neighbors_of. exists i, j, A, B. auto.
Qed.

(** C7, as the code has it.  A record without a non-empty id, or without
    a bounding box of at least seven corners, is skipped: it contributes
    no voxel, and the voxels collected, the relationships returned (or the
    exception raised), the file written and the closing message box are
    those of the document without such records, so that no such record
    makes the run abort.  The coordinates are not examined: the voxels
    collected are exactly those of the records that pass the two tests,
    with the centre of the box, whatever the coordinates are.  The skipped
    records are not counted: the lines of the collection step are the
    header, the object count of each layer and the number of voxels
    collected. *)
Theorem records_without_id_skipped (doc : Document num) :
  (forall obj, valid_record obj = false <-> voxel_of_object obj = None) /\
  (forall stdout stdout',
      fst (collect_voxels (without_invalid doc) stdout') = fst (collect_voxels doc stdout)) /\
  (forall stdout stdout',
      fst (calculate_neighbors (without_invalid doc) stdout')
      = fst (calculate_neighbors doc stdout)) /\
  (forall result stdout stdout',
      option_map run_csv (main (without_invalid doc) result stdout')
      = option_map run_csv (main doc result stdout) /\
      option_map run_message_box (main (without_invalid doc) result stdout')
      = option_map run_message_box (main doc result stdout)) /\
  (forall stdout v,
      In v (fst (collect_voxels doc stdout)) <->
      exists layer obj bbox b0 b6,
        In layer layers /\ In obj (doc layer) /\
        GetUserText_voxel_id obj = Some (voxel_id v) /\ voxel_id v <> "" /\
        BoundingBox obj = Some bbox /\ 7 <= List.length bbox /\
        nth_error bbox 0 = Some b0 /\ nth_error bbox 6 = Some b6 /\
        v = {| voxel_id := voxel_id v; guid := obj_guid obj;
               vx := fdiv (fadd (pt_X b0) (pt_X b6)) lit_2_0;
               vy := fdiv (fadd (pt_Y b0) (pt_Y b6)) lit_2_0;
               vz := fdiv (fadd (pt_Z b0) (pt_Z b6)) lit_2_0 |}) /\
  (forall stdout,
      snd (collect_voxels doc stdout)
      = stdout
          ++ [[Text LF; Text "[STEP 1] Collecting all voxels from all layers..."]]
          ++ flat_map (fun layer =>
                         match doc layer with
                         | [] => []
                         | _ :: _ => [[Text "  "; Text layer; Text ": ";
                                       Int (List.length (doc layer)); Text " voxels"]]
                         end) layers
          ++ [[Text LF; Text "  Total voxels collected: ";
               Int (List.length (fst (collect_voxels doc stdout)))]]).
Proof.
  split; [apply valid_record_false_iff|].
  split; [intros; rewrite !collect_voxels_closed; apply collected_without_invalid|].
  split; [intros; rewrite !calculate_neighbors_fst, collected_without_invalid; reflexivity|].
  split.
  { intros result stdout stdout'. unfold main.
    destruct (result =? 6)%Z; [|split; reflexivity].
    pose proof (calculate_neighbors_fst doc stdout) as Hdoc.
    pose proof (calculate_neighbors_fst (without_invalid doc) stdout') as Hwo.
    rewrite collected_without_invalid in Hwo.
    destruct (neighbors_or_raise_cases (collected doc)) as [Hsome|Hnone].
    - pose proof (proj1 (neighbors_or_raise_Some _ _) Hsome) as [Hno _].
      rewrite (calculate_neighbors_closed doc stdout Hno).
      rewrite <- collected_without_invalid in Hno.
      rewrite (calculate_neighbors_closed _ stdout' Hno), collected_without_invalid.
      rewrite !export_neighbors_closed. split; reflexivity.
    - rewrite Hnone in Hdoc, Hwo.
      destruct (calculate_neighbors doc stdout) as [[r|] o]; [discriminate|].
      destruct (calculate_neighbors (without_invalid doc) stdout') as [[r'|] o'];
        [discriminate|]. split; reflexivity. }
  split; [|intros stdout; now rewrite collect_voxels_closed].
  intros stdout v. rewrite collect_voxels_closed. cbn [fst].
  rewrite in_collected. split.
  - intros (layer & obj & Hl & Hobj & Hv). apply voxel_of_object_Some in Hv.
    destruct Hv as (bbox & b0 & b6 & Hv). exists layer, obj, bbox, b0, b6. tauto.
  - intros (layer & obj & bbox & b0 & b6 & Hl & Hobj & Hv).
    exists layer, obj. repeat split; try assumption.
    apply voxel_of_object_Some. exists bbox, b0, b6. tauto.
Qed.

End Registration.

(** C5 as stated fails: with two records of id "v1", the first one takes
    part in the neighbour computation (its edges with "v2" are emitted,
    where keeping the last record only leaves no edge), all three records
    are collected, and no warning is printed. *)
Lemma duplicate_ids_all_registered :
  fst (calculate_neighbors Documents.duplicate_document [])
  = Some [Scenarios.edge "v1" "v2" "east" 1; Scenarios.edge "v2" "v1" "west" 1] /\
  neighbors_or_raise
    (last_write_wins (fst (collect_voxels Documents.duplicate_document []))) = Some [] /\
  snd (collect_voxels Documents.duplicate_document [])
  = [[Text LF; Text "[STEP 1] Collecting all voxels from all layers..."];
     [Text "  "; Text "Layer 01"; Text ": "; Int 3; Text " voxels"];
     [Text LF; Text "  Total voxels collected: "; Int 3]].
Proof. repeat split; vm_compute; reflexivity. Qed.

(** C7 as stated fails: the record whose coordinates are infinite is
    registered as a voxel, and the printed lines count the objects and the
    collected voxels, not the skipped record. *)
Lemma nonfinite_record_registered :
  ~ Forall (fun v => is_finite (vx v) && is_finite (vy v) && is_finite (vz v) = true)
      (fst (collect_voxels Documents.nonfinite_document [])) /\
  snd (collect_voxels Documents.nonfinite_document [])
  = [[Text LF; Text "[STEP 1] Collecting all voxels from all layers..."];
     [Text "  "; Text "Layer 01"; Text ": "; Int 2; Text " voxels"];
     [Text LF; Text "  Total voxels collected: "; Int 1]].
Proof.
  split; [|vm_compute; reflexivity].
  intros Hall. vm_compute in Hall. inversion Hall as [|v l Hv _]. discriminate.
Qed.

(** ** C9: the run summary *)

(** C9 fails on the average: with two voxels and two relationships, the
    average printed is 2 / 16116, not 2 / 2. *)
Lemma average_divides_by_constant :
  exists run,
    main Documents.adjacent_document 6 [] = Some run /\
    List.length (fst (collect_voxels Documents.adjacent_document [])) = 2 /\
    option_map (@List.length _) (fst (calculate_neighbors Documents.adjacent_document []))
    = Some 2 /\
    In (Documents.average_line (2 / 16116)) (run_stdout run) /\
    ~ In (Documents.average_line (2 / 2)) (run_stdout run).
Proof.
  eexists. split; [vm_compute; reflexivity|].
  split; [reflexivity|]. split; [vm_compute; reflexivity|].
  split.
  - vm_compute. tauto.
  - intros Hin. vm_compute in Hin.
    repeat (destruct Hin as [Hin|Hin]; [discriminate|]). contradiction.
Qed.

(** ** C6: the exported records *)

Section ExportedFile.

Context {num : Type} `{PyFloat num}.

Lemma Forall2_map_right {A B : Type} (P : A -> B -> Prop) (f : A -> B) (l : list A) :
  Forall (fun a => P a (f a)) l -> Forall2 P l (map f l).
Proof. induction 1; simpl; constructor; auto. Qed.

(** C6, as the code has it: in a run that returns, the file has the header
    from_voxel, to_voxel, direction, distance; every relationship dict has
    exactly these keys in this order and gives one row, with the ids of
    two registered voxels, the label, and the distance the script
    computed for the pair in floating point, rounded by
    [round(distance, 3)]. *)
Theorem exported_records (all_voxels : list (Voxel num)) (rels : list (PyDict num))
    (stdout : list (Line num)) :
  neighbors_or_raise all_voxels = Some rels ->
  exists file stdout',
    export_neighbors_to_csv rels stdout
    = Some (path_join output_folder "voxel_neighbors.csv", file, stdout') /\
    csv_header file = ["from_voxel"; "to_voxel"; "direction"; "distance"] /\
    Forall2
      (fun r row =>
         exists A B label,
           In A all_voxels /\ In B all_voxels /\
           label = determine_direction (delta_x A B) (delta_y A B) (delta_z A B)
                     (voxel_distance A B) /\
           r = [("from_voxel", PStr (voxel_id A)); ("to_voxel", PStr (voxel_id B));
                ("direction", PStr label);
                ("distance", PNum (fround3 (voxel_distance A B)))] /\
           row = [PStr (voxel_id A); PStr (voxel_id B); PStr label;
                  PNum (fround3 (voxel_distance A B))])
      rels (csv_rows file).
Proof.
  intros Hrun. apply neighbors_or_raise_Some in Hrun. destruct Hrun as [_ ->].
  rewrite export_neighbors_closed. do 2 eexists.
  split; [reflexivity|]. split; [reflexivity|]. cbn [csv_rows].
  apply Forall2_map_right.
  eapply Forall_impl; [|apply neighbors_of_relationships].
  intros r (A & B & HA & HB & ->).
  exists A, B,
    (determine_direction (delta_x A B) (delta_y A B) (delta_z A B) (voxel_distance A B)).
  repeat split; assumption.
Qed.

End ExportedFile.

(** C6 as stated fails.  The first two fields are named from_voxel and
    to_voxel, not from_id and to_id.  And the distance written is not the
    exact distance rounded to three decimals: B lies at an exact distance
    between 0.0625 and 0.0635 from A, which rounds to 0.063, and the
    distance written is 0.062 (the computed distance is 0.0625, a tie). *)
Lemma exported_names_and_double_rounding :
  let rels := [Scenarios.edge "A" "B" "east" 0.062; Scenarios.edge "B" "A" "west" 0.062] in
  neighbors_or_raise Scenarios.tie_cells = Some rels /\
  ~ (exists path file stdout',
        export_neighbors_to_csv rels [] = Some (path, file, stdout') /\
        csv_header file = ["from_id"; "to_id"; "direction"; "distance"]) /\
  ~ (forall r, In r rels -> dict_keys r = ["from_id"; "to_id"; "direction"; "distance"]) /\
  exists q : Q,
    Exact.squared_distance (Scenarios.voxel_at "A" 0 0 0)
      (Scenarios.voxel_at "B" 0.0625 0x1p-32 0) = Some q /\
    ((625 # 10000) * (625 # 10000) < q)%Q /\ (q < (635 # 10000) * (635 # 10000))%Q.
Proof.
  intros rels. split; [vm_compute; reflexivity|]. split; [|split].
  - intros (path & file & stdout' & Hexp & Hhead).
    vm_compute in Hexp. injection Hexp as _ <- _. discriminate Hhead.
  - intros Hall. specialize (Hall _ (or_introl eq_refl)). discriminate Hall.
  - eexists. split; [vm_compute; reflexivity|]. split; reflexivity.
Qed.

Lemma exported_records_witness :
  exists file stdout',
    export_neighbors_to_csv
      [Scenarios.edge "A" "B" "east" 1; Scenarios.edge "B" "A" "west" 1] []
    = Some (path_join output_folder "voxel_neighbors.csv", file, stdout') /\
    csv_header file = ["from_voxel"; "to_voxel"; "direction"; "distance"] /\
    List.length (csv_rows file) = 2.
Proof.
  destruct (exported_records Scenarios.scenario_1
              [Scenarios.edge "A" "B" "east" 1; Scenarios.edge "B" "A" "west" 1] [])
    as (file & stdout' & Hexp & Hhead & Hrows).
  - vm_compute. reflexivity.
  - exists file, stdout'. split; [exact Hexp|]. split; [exact Hhead|].
    apply Forall2_length in Hrows. now rewrite <- Hrows.
Defined.

(** * Further properties of the adjacency script *)

(** ** Sizes, order of registration and the layers read *)

Section Sizes.

Context {num : Type} `{PyFloat num}.

Lemma inner_appended_length (i : nat) (voxel : Voxel num) (others : list (Voxel num)) :
  forall j,
    List.length (inner_appended i voxel j others)
    + (if (j <=? i)%nat && (i <? j + List.length others)%nat then 1 else 0)
    <= List.length others.
Proof.
  induction others as [|other rest IH]; intros j; cbn [inner_appended List.length].
  - destruct ((j <=? i)%nat && (i <? j + 0)%nat) eqn:E; [|lia].
    apply andb_prop in E as [E1 E2].
    apply Nat.leb_le in E1. apply Nat.ltb_lt in E2. lia.
  - rewrite length_app. specialize (IH (S j)).
    destruct (Nat.eqb_spec i j) as [->|Hne].
    + replace ((S j <=? j)%nat) with false in IH
        by (symmetry; apply Nat.leb_gt; lia).
      destruct ((j <=? j)%nat && (j <? j + S (List.length rest))%nat); simpl in *; lia.
    + assert (Hone : List.length
                (if fle (voxel_distance voxel other) ADJACENCY_THRESHOLD
                 then [relationship voxel other] else []) <= 1)
        by (destruct (fle _ _); simpl; lia).
      destruct ((S j <=? i)%nat && (i <? S j + List.length rest)%nat) eqn:E.
      * apply andb_prop in E as [E1 E2].
        apply Nat.leb_le in E1. apply Nat.ltb_lt in E2.
        replace ((j <=? i)%nat && (i <? j + S (List.length rest))%nat) with true
          by (symmetry; apply andb_true_intro; split;
              [apply Nat.leb_le|apply Nat.ltb_lt]; lia).
        lia.
      * replace ((j <=? i)%nat && (i <? j + S (List.length rest))%nat) with false.
        -- lia.
        -- symmetry. apply andb_false_iff. apply andb_false_iff in E.
           destruct E as [E|E]; [left; apply Nat.leb_gt; apply Nat.leb_gt in E; lia|].
           right. apply Nat.ltb_ge. apply Nat.ltb_ge in E. lia.
Qed.

Lemma outer_appended_length (all_voxels voxels : list (Voxel num)) :
  forall i,
    i + List.length voxels <= List.length all_voxels ->
    List.length (outer_appended all_voxels i voxels)
    <= List.length voxels * (List.length all_voxels - 1).
Proof.
  induction voxels as [|voxel rest IH]; intros i Hi; cbn [outer_appended List.length] in *.
  - lia.
  - rewrite length_app. specialize (IH (S i) ltac:(lia)).
    pose proof (inner_appended_length i voxel all_voxels 0) as Hin.
    replace ((0 <=? i)%nat && (i <? 0 + List.length all_voxels)%nat) with true in Hin
      by (symmetry; apply andb_true_intro; split;
          [apply Nat.leb_le|apply Nat.ltb_lt]; lia).
    lia.
Qed.

(** Among n voxels there are at most n (n - 1) relationships: none for no
    voxel and none for a single voxel. *)
Theorem relationships_bound (all_voxels : list (Voxel num)) :
  List.length (neighbors_of all_voxels)
  <= List.length all_voxels * (List.length all_voxels - 1).
Proof.
  unfold neighbors_of. rewrite outer_loop_appends. cbn [app].
  apply outer_appended_length. lia.
Qed.

(** Registering more voxels, before or after, removes no relationship, as
    long as the run on the longer list returns: the run on the shorter
    list returns too, and each of its relationships is kept. *)
Theorem relationships_kept (before all_voxels after : list (Voxel num))
    (rels' : list (PyDict num)) :
  neighbors_or_raise (before ++ all_voxels ++ after) = Some rels' ->
  exists rels,
    neighbors_or_raise all_voxels = Some rels /\
    forall r, In r rels -> In r rels'.
Proof.
  intros Hrun. apply neighbors_or_raise_Some in Hrun. destruct Hrun as [Hno ->].
  assert (Hnth : forall i v, nth_error all_voxels i = Some v ->
                   nth_error (before ++ all_voxels ++ after) (List.length before + i)
                   = Some v).
  { intros i v Hi. rewrite nth_error_app2 by lia.
    replace (List.length before + i - List.length before) with i by lia.
    rewrite nth_error_app1; [assumption|]. apply nth_error_Some. congruence. }
  exists (neighbors_of all_voxels). split.
  - apply neighbors_or_raise_Some. split; [|reflexivity].
    intros i j A B Hi Hj Hne.
    apply (Hno (List.length before + i) (List.length before + j) A B); auto. lia.
  - intros r. rewrite !in_neighbors_of.
    intros (i & j & A & B & Hi & Hj & Hne & Hle & ->).
    exists (List.length before + i), (List.length before + j), A, B.
    repeat split; auto. lia.
Qed.




Lemma flat_map_ext_on {A B : Type} (f g : A -> list B) (l : list A) :
  (forall a, In a l -> f a = g a) -> flat_map f l = flat_map g l.
Proof.
  induction l as [|a l IH]; intros Hfg; simpl; [reflexivity|].
  rewrite (Hfg a) by now left. rewrite IH; [reflexivity|].
  intros b Hb. apply Hfg. now right.
Qed.

Lemma collected_ext (doc doc' : Document num) :
  (forall layer, In layer layers -> doc layer = doc' layer) ->
  collected doc = collected doc' /\ layer_lines doc layers = layer_lines doc' layers.
Proof.
  intros Hsame. unfold collected, layer_lines. split.
  - apply flat_map_ext_on. intros layer Hl. now rewrite (Hsame layer Hl).
  - apply flat_map_ext_on. intros layer Hl. now rewrite (Hsame layer Hl).
Qed.

(** Only the layers "Layer 01" to "Layer 04" are read: two documents that
    agree on these four give the same run, whatever their other layers
    hold. *)
Theorem other_layers_ignored (doc doc' : Document num) (result : Z) (stdout : list (Line num)) :
  (forall layer, In layer layers -> doc layer = doc' layer) ->
  main doc result stdout = main doc' result stdout.
Proof.
  intros Hsame. destruct (collected_ext doc doc' Hsame) as [Hc Hl].
  unfold main. destruct (result =? 6)%Z; [|reflexivity].
  now rewrite (calculate_neighbors_ext doc doc' stdout Hc Hl).
Qed.

(** A document whose four layers are empty: the run completes, prints a
    total of 0 voxels and 0 relationships without any warning, and writes a
    file that has the header and no row. *)
Theorem empty_document_run (doc : Document num) (stdout : list (Line num)) :
  (forall layer, In layer layers -> doc layer = []) ->
  main doc 6 stdout
  = Some {| run_stdout :=
              stdout
                ++ [[Text LF; Text "[STEP 1] Collecting all voxels from all layers..."];
                    [Text LF; Text "  Total voxels collected: "; Int 0];
                    [Text LF; Text "[STEP 2] Calculating neighbors (threshold: ";
                     Float ADJACENCY_THRESHOLD; Text "m)..."];
                    [Text "  This may take several minutes for 16K voxels..."];
                    [Text LF; Text "  Found "; Int 0; Text " neighbor relationships"];
                    [Text LF; Text "[STEP 3] Exporting to: ";
                     Text (path_join output_folder "voxel_neighbors.csv")];
                    [Text "✅ Neighbor relationships exported!"]]
                ++ summary_lines [] (path_join output_folder "voxel_neighbors.csv");
            run_csv := Some (path_join output_folder "voxel_neighbors.csv",
                             {| csv_header := fieldnames; csv_rows := [] |});
            run_message_box :=
              Some (summary_message_box [] (path_join output_folder "voxel_neighbors.csv")) |}.
Proof.
  intros Hempty.
  destruct (collected_ext doc (fun _ => []) Hempty) as [Hc Hl].
  assert (Hno : no_overflow (collected doc)).
  { rewrite Hc. intros [|i] j voxel other Hi; discriminate. }
  pose proof (main_closed doc stdout Hno) as Hmain. cbv zeta in Hmain.
  unfold calculate_neighbors_lines in Hmain. rewrite Hc, Hl in Hmain.
  exact Hmain.
Qed.

End Sizes.

Lemma relationships_kept_witness :
  exists rels,
    neighbors_or_raise Scenarios.scenario_1 = Some rels /\
    forall r, In r rels ->
              In r [Scenarios.edge "A" "B" "east" 1; Scenarios.edge "B" "A" "west" 1].
Proof.
  apply (relationships_kept [Scenarios.voxel_at "Z" 9 9 9] Scenarios.scenario_1
           [Scenarios.voxel_at "Y" 20 0 0]).
  vm_compute. reflexivity.
Defined.

Lemma other_layers_ignored_witness :
  main Documents.adjacent_document 6 [] = main Documents.extra_layer_document 6 [].
Proof.
  apply other_layers_ignored.
  intros layer Hl. simpl in Hl.
  repeat (destruct Hl as [<-|Hl]; [reflexivity|]). contradiction.
Defined.

Lemma empty_document_run_witness :
  exists run,
    main Documents.empty_document 6 [] = Some run /\
    run_csv run = Some (path_join output_folder "voxel_neighbors.csv",
                        {| csv_header := fieldnames; csv_rows := [] |}).
Proof.
  eexists. split.
  - apply empty_document_run. intros layer _. reflexivity.
  - reflexivity.
Defined.

Section HighlighterLemmas.

Import VoxelHighlighter.

Lemma same_id_true_iff (a b : option string) : same_id a b = true <-> a = b.
Proof.
  destruct a as [a|], b as [b|]; simpl; split; intros E; try discriminate; try reflexivity.
  - apply String.eqb_eq in E. now subst.
  - injection E as ->. apply String.eqb_refl.
Qed.

Lemma same_id_false_iff (a b : option string) : same_id a b = false <-> a <> b.
Proof.
  rewrite <- same_id_true_iff. destruct (same_id a b); split; intros; congruence.
Qed.

Lemma find_voxel_by_id_first_match (sc : Scene) (voxel_id : option string) :
  find_voxel_by_id sc voxel_id = first_match sc voxel_id.
Proof. destruct sc; reflexivity. Qed.

Lemma first_match_Some (sc : Scene) (voxel_id : option string) (g : nat) :
  first_match sc voxel_id = Some g <->
  exists before obj after,
    sc = before ++ obj :: after /\ guid_of obj = g /\ voxel_id_of obj = voxel_id /\
    forall o, In o before -> voxel_id_of o <> voxel_id.
Proof.
  induction sc as [|obj rest IH]; simpl.
  - split; [discriminate|]. intros (before & o & after & E & _).
    destruct before; discriminate.
  - destruct (same_id (voxel_id_of obj) voxel_id) eqn:E.
    + apply same_id_true_iff in E. split.
      * intros [= <-]. exists [], obj, rest. repeat split; auto.
      * intros (before & o & after & Hsc & Hg & Hid & Hbefore).
        destruct before as [|b before]; simpl in Hsc; injection Hsc as -> ->.
        -- now subst.
        -- exfalso. apply (Hbefore b); [now left|assumption].
    + apply same_id_false_iff in E. rewrite IH. split.
      * intros (before & o & after & -> & Hg & Hid & Hbefore).
        exists (obj :: before), o, after. repeat split; auto.
        intros o' [<-|Ho']; auto.
      * intros (before & o & after & Hsc & Hg & Hid & Hbefore).
        destruct before as [|b before]; simpl in Hsc; injection Hsc as -> ->.
        -- contradiction.
        -- exists before, o, after. repeat split; auto.
           intros o' Ho'. apply Hbefore. now right.
Qed.

Lemma first_match_None (sc : Scene) (voxel_id : option string) :
  first_match sc voxel_id = None <-> forall o, In o sc -> voxel_id_of o <> voxel_id.
Proof.
  induction sc as [|obj rest IH]; simpl.
  - split; [intros _ o []|reflexivity].
  - destruct (same_id (voxel_id_of obj) voxel_id) eqn:E.
    + apply same_id_true_iff in E. split; [discriminate|].
      intros Hall. exfalso. apply (Hall obj); [now left|assumption].
    + apply same_id_false_iff in E. rewrite IH. split.
      * intros Hall o [<-|Ho]; auto.
      * intros Hall o Ho. apply Hall. now right.
Qed.

Lemma first_match_tags (sc sc' : Scene) (voxel_id : option string) :
  tags sc = tags sc' -> first_match sc voxel_id = first_match sc' voxel_id.
Proof.
  revert sc'. induction sc as [|obj rest IH]; intros [|obj' rest'] E; simpl in *;
    try discriminate; [reflexivity|].
  injection E as Hg Hid Hrest. rewrite Hg, Hid, (IH rest' Hrest). reflexivity.
Qed.

Lemma find_voxel_by_id_tags (sc sc' : Scene) (voxel_id : option string) :
  tags sc = tags sc' -> find_voxel_by_id sc voxel_id = find_voxel_by_id sc' voxel_id.
Proof. rewrite !find_voxel_by_id_first_match. apply first_match_tags. Qed.

Lemma first_match_guid_in (sc : Scene) (voxel_id : option string) (g : nat) :
  first_match sc voxel_id = Some g ->
  existsb (fun obj => (guid_of obj =? g)%nat) sc = true.
Proof.
  intros Hm. apply first_match_Some in Hm.
  destruct Hm as (before & obj & after & -> & <- & _).
  apply existsb_exists. exists obj. split; [|apply Nat.eqb_refl].
  apply in_or_app. right. now left.
Qed.

Lemma changed_only_refl (sc : Scene) : changed_only [] sc sc.
Proof. induction sc; constructor; auto. Qed.

Lemma changed_only_trans (gs1 gs2 : list nat) (sc1 sc2 sc3 : Scene) :
  changed_only gs1 sc1 sc2 -> changed_only gs2 sc2 sc3 ->
  changed_only (gs1 ++ gs2) sc1 sc3.
Proof.
  intros H12. revert sc3. induction H12 as [|o1 o2 l1 l2 (Hg & Hid & Hc) _ IH];
    intros sc3 H23; inversion H23 as [|o2' o3 l2' l3 (Hg' & Hid' & Hc') Hrest]; subst;
    constructor.
  - repeat split; try congruence.
    intros Hnot. rewrite Hc', Hc; [reflexivity| |].
    + intros Hin. apply Hnot. apply in_or_app. now left.
    + rewrite Hg. intros Hin. apply Hnot. apply in_or_app. now right.
  - now apply IH.
Qed.

Lemma changed_only_tags (gs : list nat) (sc sc' : Scene) :
  changed_only gs sc sc' -> tags sc' = tags sc.
Proof.
  induction 1 as [|o o' l l' (Hg & Hid & _) _ IH]; simpl; [reflexivity|].
  now rewrite Hg, Hid, IH.
Qed.

Lemma recolor_changed_only (g : nat) (color : Color) (sc : Scene) :
  changed_only [g] sc (map (recolor g color) sc).
Proof.
  induction sc as [|obj rest IH]; simpl; constructor; auto.
  unfold recolor. destruct (Nat.eqb_spec (guid_of obj) g) as [E|E]; simpl; auto.
  repeat split. intros Hnot. exfalso. apply Hnot. left. now symmetry.
Qed.

(** [highlight_voxel] does not raise: a guid that was found is the guid of
    an object of the document. *)
Lemma highlight_voxel_found (voxel_id : option string) (color : Color) (st : State) (g : nat) :
  find_voxel_by_id (scene st) voxel_id = Some g ->
  highlight_voxel voxel_id color st
  = (Returned true,
     {| scene := map (recolor g color) (scene st);
        highlighted_objects := highlighted_objects st ++ [g];
        printed := printed st |}).
Proof.
  intros Hf. unfold highlight_voxel, ObjectColor. rewrite Hf.
  rewrite find_voxel_by_id_first_match in Hf.
  now rewrite (first_match_guid_in _ _ _ Hf).
Qed.

Lemma highlight_voxel_not_found (voxel_id : option string) (color : Color) (st : State) :
  find_voxel_by_id (scene st) voxel_id = None ->
  highlight_voxel voxel_id color st
  = (Returned false,
     {| scene := scene st;
        highlighted_objects := highlighted_objects st;
        printed := printed st ++ [[Some "  Voxel"; voxel_id; Some "not found in Rhino"]] |}).
Proof. intros Hf. unfold highlight_voxel. now rewrite Hf. Qed.

Lemma id_and_color_voxel_id (scheme : list (string * Color)) (item : Item)
    (voxel_id : option string) (color : Color) :
  id_and_color scheme item = Some (voxel_id, color) -> voxel_id = item_voxel_id item.
Proof.
  destruct item as [s|d]; simpl.
  - now intros [= <- _].
  - destruct (get scheme "Default"); [|discriminate]. now intros [= <- _].
Qed.

Lemma id_and_color_None (scheme : list (string * Color)) (item : Item) :
  id_and_color scheme item = None <-> is_id item = false /\ get scheme "Default" = None.
Proof.
  destruct item as [s|d]; simpl.
  - split; [discriminate|intros [? _]; discriminate].
  - destruct (get scheme "Default"); split; try discriminate; auto.
    intros [_ ?]; discriminate.
Qed.

Lemma found_guids_tags (sc sc' : Scene) (l : list Item) :
  tags sc = tags sc' ->
  found_guids sc l = found_guids sc' l /\ not_found_lines sc l = not_found_lines sc' l.
Proof.
  intros Ht. unfold found_guids, not_found_lines.
  split; apply flat_map_ext; intros item;
    now rewrite (find_voxel_by_id_tags sc sc' _ Ht).
Qed.

(** The loop of [highlight_voxels] when no item raises. *)
Lemma highlight_loop_returns (scheme : list (string * Color)) (l : list Item) :
  (forall item, In item l -> id_and_color scheme item <> None) ->
  forall count st,
  exists st',
    highlight_loop scheme l count st
    = (Returned (count + List.length (found_guids (scene st) l)), st') /\
    changed_only (found_guids (scene st) l) (scene st) (scene st') /\
    highlighted_objects st' = highlighted_objects st ++ found_guids (scene st) l /\
    printed st' = printed st ++ not_found_lines (scene st) l.
Proof.
  induction l as [|item rest IH]; intros Hok count st.
  - exists st. cbn. rewrite Nat.add_0_r, !app_nil_r.
    repeat split; auto using changed_only_refl.
  - cbn [highlight_loop].
    destruct (id_and_color scheme item) as [[voxel_id color]|] eqn:Hic;
      [|exfalso; apply (Hok item); [now left|assumption]].
    apply id_and_color_voxel_id in Hic. subst voxel_id.
    assert (Hok' : forall i, In i rest -> id_and_color scheme i <> None)
      by (intros i Hi; apply Hok; now right).
    unfold found_guids, not_found_lines. cbn [flat_map].
    fold (found_guids (scene st) rest). fold (not_found_lines (scene st) rest).
    destruct (find_voxel_by_id (scene st) (item_voxel_id item)) as [g|] eqn:Hf.
    + rewrite (highlight_voxel_found _ color st g Hf).
      set (st1 := {| scene := map (recolor g color) (scene st);
                     highlighted_objects := highlighted_objects st ++ [g];
                     printed := printed st |}).
      destruct (IH Hok' (count + 1) st1) as (st' & Hrun & Hch & Hho & Hpr).
      pose proof (recolor_changed_only g color (scene st)) as Hstep.
      destruct (found_guids_tags (scene st1) (scene st) rest
                  (changed_only_tags _ _ _ Hstep)) as [Hfg Hnf].
      rewrite Hfg in *. rewrite Hnf in *.
      exists st'. rewrite Hrun. cbn [List.length app]. repeat split.
      * f_equal. f_equal. lia.
      * exact (changed_only_trans [g] _ _ _ _ Hstep Hch).
      * rewrite Hho. subst st1. cbn. now rewrite <- app_assoc.
      * rewrite Hpr. reflexivity.
    + rewrite (highlight_voxel_not_found _ color st Hf).
      set (st1 := {| scene := scene st;
                     highlighted_objects := highlighted_objects st;
                     printed := printed st
                       ++ [[Some "  Voxel"; item_voxel_id item;
                            Some "not found in Rhino"]] |}).
      destruct (IH Hok' count st1) as (st' & Hrun & Hch & Hho & Hpr).
      exists st'. rewrite Hrun. cbn [app]. repeat split; auto.
      rewrite Hpr. subst st1. cbn. now rewrite <- app_assoc.
Qed.

(** The loop when the scheme has no 'Default' and some item is a dict. *)
Lemma highlight_loop_raises (scheme : list (string * Color)) (l : list Item) :
  get scheme "Default" = None ->
  existsb (fun item => negb (is_id item)) l = true ->
  forall count st,
  exists st', highlight_loop scheme l count st = (Raised "KeyError", st').
Proof.
  intros Hnone. induction l as [|item rest IH]; intros Hex count st; [discriminate|].
  cbn [highlight_loop].
  destruct (id_and_color scheme item) as [[voxel_id color]|] eqn:Hic; [|eauto].
  assert (Hid : is_id item = true).
  { destruct (is_id item) eqn:E; [reflexivity|].
    assert (id_and_color scheme item = None) by (apply id_and_color_None; auto).
    congruence. }
  cbn [existsb] in Hex. rewrite Hid in Hex. cbn in Hex.
  apply id_and_color_voxel_id in Hic. subst voxel_id.
  destruct (find_voxel_by_id (scene st) (item_voxel_id item)) as [g|] eqn:Hf.
  - rewrite (highlight_voxel_found _ color st g Hf). apply IH. assumption.
  - rewrite (highlight_voxel_not_found _ color st Hf). apply IH. assumption.
Qed.

Lemma clear_loop_closed (guids : list nat) :
  forall sc, clear_loop guids sc = map (gray_if_in guids) sc.
Proof.
  induction guids as [|g rest IH]; intros sc; cbn [clear_loop].
  - unfold gray_if_in. cbn. now rewrite map_id.
  - assert (Hstep : forall sc', (ObjectColor sc g (200, 200, 200) = Some sc' \/
                                 (ObjectColor sc g (200, 200, 200) = None /\ sc' = sc)) ->
                                clear_loop rest sc' = map (gray_if_in (g :: rest)) sc).
    { intros sc' Hsc'. rewrite IH.
      assert (Hmap : sc' = map (recolor g (200, 200, 200)) sc).
      { unfold ObjectColor in Hsc'.
        destruct (existsb (fun obj => (guid_of obj =? g)%nat) sc) eqn:Hex.
        - destruct Hsc' as [[= <-]|[[=] _]]. reflexivity.
        - destruct Hsc' as [[=]|[_ ->]].
          rewrite <- (map_id sc) at 1. apply map_ext_in. intros obj Hobj.
          unfold recolor. destruct (Nat.eqb_spec (guid_of obj) g) as [E|E]; [|reflexivity].
          assert (existsb (fun obj => (guid_of obj =? g)%nat) sc = true)
            by (apply existsb_exists; exists obj; split; [assumption|now apply Nat.eqb_eq]).
          congruence. }
      rewrite Hmap, map_map. apply map_ext. intros obj.
      unfold recolor, gray_if_in. cbn [existsb].
      destruct (Nat.eqb_spec (guid_of obj) g) as [E|E]; cbn [guid_of voxel_id_of color_of].
      - cbn [orb]. now destruct (existsb (Nat.eqb (guid_of obj)) rest).
      - reflexivity. }
    destruct (ObjectColor sc g (200, 200, 200)) as [sc'|] eqn:Hoc; apply Hstep; auto.
Qed.

End HighlighterLemmas.

Section HighlighterProperties.

Import VoxelHighlighter.

(** [find_voxel_by_id] returns the guid of the first object, in document
    order, whose stored id equals the id asked for, and None exactly when
    no object has that id (in particular in an empty document). *)
Theorem find_voxel_by_id_first (sc : Scene) (voxel_id : option string) :
  (forall g,
      find_voxel_by_id sc voxel_id = Some g <->
      exists before obj after,
        sc = before ++ obj :: after /\ guid_of obj = g /\ voxel_id_of obj = voxel_id /\
        forall o, In o before -> voxel_id_of o <> voxel_id) /\
  (find_voxel_by_id sc voxel_id = None <->
   forall o, In o sc -> voxel_id_of o <> voxel_id).
Proof.
  rewrite find_voxel_by_id_first_match. split.
  - intros g. apply first_match_Some.
  - apply first_match_None.
Qed.

Lemma default_scheme_has_default : get default_scheme "Default" <> None.
Proof. cbn. discriminate. Qed.

Lemma can_return (scheme : list (string * Color)) (l : list Item) :
  get scheme "Default" <> None \/ forallb is_id l = true ->
  forall item, In item l -> id_and_color scheme item <> None.
Proof.
  intros Hcan item Hitem Hnone. apply id_and_color_None in Hnone.
  destruct Hnone as [Hdict Hno]. destruct Hcan as [Hd|Hids]; [contradiction|].
  rewrite forallb_forall in Hids. specialize (Hids item Hitem). congruence.
Qed.

Lemma found_guids_length (sc : Scene) (l : list Item) :
  List.length (found_guids sc l) <= List.length l.
Proof.
  unfold found_guids.
  induction l as [|item rest IH]; cbn [flat_map List.length]; [lia|].
  rewrite length_app.
  destruct (find_voxel_by_id sc (item_voxel_id item)); cbn [List.length]; lia.
Qed.

(** With a scheme that has the key 'Default' (or a list of plain ids),
    [highlight_voxels] returns the number of items whose id is found in
    the document, at most the length of the list; it appends the guids
    found, in order and with repetitions, to [highlighted_objects], prints
    one line per item that is not found, and changes nothing of the
    document but the colours of the objects found. *)
Theorem highlight_voxels_count (scheme : list (string * Color)) (l : list Item) (st : State) :
  get scheme "Default" <> None \/ forallb is_id l = true ->
  exists st',
    highlight_voxels scheme l st
    = (Returned (List.length (found_guids (scene st) l)), st') /\
    List.length (found_guids (scene st) l) <= List.length l /\
    highlighted_objects st' = highlighted_objects st ++ found_guids (scene st) l /\
    printed st' = printed st ++ not_found_lines (scene st) l /\
    changed_only (found_guids (scene st) l) (scene st) (scene st').
Proof.
  intros Hcan.
  destruct (highlight_loop_returns scheme l (can_return scheme l Hcan) 0 st)
    as (st' & Hrun & Hch & Hho & Hpr).
  exists st'. unfold highlight_voxels. rewrite Hrun.
  repeat split; auto using found_guids_length.
Qed.

(** [highlight_voxels] raises exactly when the colour scheme has no key
    'Default' and the list holds a dict; what it raises is then the
    KeyError of the lookup of 'Default', whatever the risk level of the
    dict. *)
Theorem highlight_voxels_raises_iff (scheme : list (string * Color)) (l : list Item)
    (st : State) :
  ((exists e st', highlight_voxels scheme l st = (Raised e, st')) <->
   (get scheme "Default" = None /\ existsb (fun item => negb (is_id item)) l = true)) /\
  (forall e st', highlight_voxels scheme l st = (Raised e, st') -> e = "KeyError").
Proof.
  assert (Hcases : (get scheme "Default" = None /\
                    existsb (fun item => negb (is_id item)) l = true) \/
                   (get scheme "Default" <> None \/ forallb is_id l = true)).
  { destruct (get scheme "Default") eqn:Hd; [right; left; discriminate|].
    destruct (forallb is_id l) eqn:Hf; [right; now right|left].
    split; [reflexivity|].
    assert (Hex : exists item, In item l /\ is_id item = false).
    { clear -Hf. induction l as [|item rest IH]; [discriminate|]. cbn in Hf.
      destruct (is_id item) eqn:E.
      - destruct (IH Hf) as (i & Hi & Hb). exists i. split; [now right|assumption].
      - exists item. split; [now left|assumption]. }
    destruct Hex as (item & Hitem & Hb). apply existsb_exists. exists item.
    split; [assumption|]. now rewrite Hb. }
  unfold highlight_voxels. destruct Hcases as [[Hno Hex]|Hcan].
  - destruct (highlight_loop_raises scheme l Hno Hex 0 st) as (st' & Hrun).
    split.
    + split; [auto|]. intros _. eauto.
    + intros e st'' Hr. congruence.
  - destruct (highlight_loop_returns scheme l (can_return scheme l Hcan) 0 st)
      as (st' & Hrun & _).
    split.
    + split.
      * intros (e & st'' & Hr). congruence.
      * intros [Hno Hex]. exfalso. destruct Hcan as [Hd|Hids]; [contradiction|].
        apply existsb_exists in Hex. destruct Hex as (item & Hitem & Hb).
        rewrite forallb_forall in Hids. rewrite (Hids item Hitem) in Hb. discriminate.
    + intros e st'' Hr. congruence.
Qed.

(** A highlighter made without a colour scheme, or with an empty dict,
    has the default scheme, with which [highlight_voxels] returns for
    every list; a non-empty scheme is kept as given. *)
Theorem init_scheme (l : list Item) (st : State) :
  init None = default_scheme /\
  init (Some []) = default_scheme /\
  (forall entry scheme, init (Some (entry :: scheme)) = entry :: scheme) /\
  (exists n st', highlight_voxels (init None) l st = (Returned n, st')).
Proof.
  repeat split.
  assert (Hcan : get default_scheme "Default" <> None \/ forallb is_id l = true)
    by (left; apply default_scheme_has_default).
  destruct (highlight_loop_returns default_scheme l (can_return _ l Hcan) 0 st)
    as (st' & Hrun & _).
  unfold highlight_voxels. cbn [init]. rewrite Hrun. eauto.
Qed.

(** [clear_all] empties [highlighted_objects], paints gray (200, 200, 200)
    every object whose guid was in it and leaves every other object as it
    was; a guid that is no longer in the document is passed over. *)
Theorem clear_all_resets (st : State) :
  highlighted_objects (clear_all st) = [] /\
  printed (clear_all st) = printed st ++ [[Some "Cleared all highlighting"]] /\
  changed_only (highlighted_objects st) (scene st) (scene (clear_all st)) /\
  (forall obj, In obj (scene (clear_all st)) ->
               In (guid_of obj) (highlighted_objects st) ->
               color_of obj = (200, 200, 200)).
Proof.
  unfold clear_all. cbn [scene highlighted_objects printed].
  rewrite clear_loop_closed. repeat split.
  - induction (scene st) as [|obj rest IH]; cbn [map]; constructor; [|exact IH].
    unfold gray_if_in.
    destruct (existsb (Nat.eqb (guid_of obj)) (highlighted_objects st)) eqn:E;
      cbn; repeat split.
    intros Hnot. exfalso. apply Hnot. apply existsb_exists in E.
    destruct E as (g & Hg & Heq). apply Nat.eqb_eq in Heq. now subst.
  - intros obj Hobj Hin. apply in_map_iff in Hobj. destruct Hobj as (o & <- & _).
    unfold gray_if_in in *.
    destruct (existsb (Nat.eqb (guid_of o)) (highlighted_objects st)) eqn:E;
      [reflexivity|].
    exfalso. assert (existsb (Nat.eqb (guid_of o)) (highlighted_objects st) = true).
    { apply existsb_exists. exists (guid_of o). split; [assumption|apply Nat.eqb_refl]. }
    congruence.
Qed.

Lemma gray_if_in_changed_only (gs gs' : list nat) (sc sc1 : Scene) :
  changed_only gs sc sc1 ->
  (forall g, In g gs -> In g gs') ->
  map (gray_if_in gs') sc1 = map (gray_if_in gs') sc.
Proof.
  intros Hch Hsub. induction Hch as [|o o1 l l1 (Hg & Hid & Hc) _ IH]; cbn [map];
    [reflexivity|].
  rewrite IH. f_equal. unfold gray_if_in. rewrite Hg.
  destruct (existsb (Nat.eqb (guid_of o)) gs') eqn:E.
  - now rewrite Hid.
  - assert (Hnot : ~ In (guid_of o) gs).
    { intros Hin. apply Hsub in Hin.
      assert (existsb (Nat.eqb (guid_of o)) gs' = true)
        by (apply existsb_exists; exists (guid_of o); split;
            [assumption|apply Nat.eqb_refl]).
      congruence. }
    specialize (Hc Hnot). destruct o, o1. cbn in *. congruence.
Qed.

(** Highlighting and then clearing does not bring the colours back: the
    document that results is the first one with every object that was
    found, or was highlighted before, painted gray, whatever the colour
    scheme and the risk levels were. *)
Theorem highlight_then_clear (scheme : list (string * Color)) (l : list Item) (st : State) :
  get scheme "Default" <> None \/ forallb is_id l = true ->
  exists n st1,
    highlight_voxels scheme l st = (Returned n, st1) /\
    scene (clear_all st1)
    = map (gray_if_in (highlighted_objects st ++ found_guids (scene st) l)) (scene st) /\
    highlighted_objects (clear_all st1) = [].
Proof.
  intros Hcan.
  destruct (highlight_loop_returns scheme l (can_return scheme l Hcan) 0 st)
    as (st1 & Hrun & Hch & Hho & _).
  exists (0 + List.length (found_guids (scene st) l)), st1.
  split; [exact Hrun|]. split; [|reflexivity].
  unfold clear_all. cbn [scene]. rewrite clear_loop_closed, Hho.
  apply (gray_if_in_changed_only _ _ _ _ Hch).
  intros g Hg. apply in_or_app. now right.
Qed.

(** A dict without the key 'voxel_id' asks for the id None, which the
    first object without a "voxel_id" user text has: that object takes
    the colour of the dict's risk level and is appended to
    [highlighted_objects], and the item counts as highlighted. *)
Theorem missing_voxel_id_key (scheme : list (string * Color)) (d : list (string * string))
    (st : State) (before after : Scene) (obj : SceneObject) (default : Color) :
  get scheme "Default" = Some default ->
  get d "voxel_id" = None ->
  scene st = before ++ obj :: after ->
  voxel_id_of obj = None ->
  (forall o, In o before -> voxel_id_of o <> None) ->
  let color := match get d "overall_risk_level" with
               | Some risk => match get scheme risk with
                              | Some color => color
                              | None => default
                              end
               | None => default
               end in
  highlight_voxels scheme [Dict d] st
  = (Returned 1,
     {| scene := map (recolor (guid_of obj) color) (scene st);
        highlighted_objects := highlighted_objects st ++ [guid_of obj];
        printed := printed st |}) /\
  In {| guid_of := guid_of obj; voxel_id_of := None; color_of := color |}
     (map (recolor (guid_of obj) color) (scene st)).
Proof.
  intros Hd Hkey Hsc Hobj Hbefore color.
  assert (Hfind : find_voxel_by_id (scene st) None = Some (guid_of obj)).
  { rewrite find_voxel_by_id_first_match. apply first_match_Some.
    exists before, obj, after. auto. }
  assert (Hic : id_and_color scheme (Dict d) = Some (None, color)).
  { unfold id_and_color. rewrite Hkey, Hd. subst color.
    destruct (get d "overall_risk_level"); [reflexivity|]. now rewrite Hd. }
  split.
  - unfold highlight_voxels. cbn [highlight_loop]. rewrite Hic.
    now rewrite (highlight_voxel_found None color st (guid_of obj) Hfind).
  - rewrite Hsc, map_app. apply in_or_app. right. left.
    unfold recolor. now rewrite Nat.eqb_refl, Hobj.
Qed.

End HighlighterProperties.

Lemma highlight_voxels_count_witness :
  exists st',
    VoxelHighlighter.highlight_voxels VoxelHighlighter.default_scheme
      [VoxelHighlighter.Id "v_M1_00002";
       VoxelHighlighter.Dict [("voxel_id", "v_M1_00001"); ("overall_risk_level", "High")];
       VoxelHighlighter.Id "v_M1_00009"]
      VoxelHighlighter.sample_state
    = (VoxelHighlighter.Returned 2, st') /\
    VoxelHighlighter.highlighted_objects st' = [3; 1] /\
    VoxelHighlighter.printed st'
    = [[Some "  Voxel"; Some "v_M1_00009"; Some "not found in Rhino"]].
Proof.
  pose proof default_scheme_has_default as Hd.
  destruct (highlight_voxels_count VoxelHighlighter.default_scheme
              [VoxelHighlighter.Id "v_M1_00002";
               VoxelHighlighter.Dict [("voxel_id", "v_M1_00001");
                                      ("overall_risk_level", "High")];
               VoxelHighlighter.Id "v_M1_00009"]
              VoxelHighlighter.sample_state (or_introl Hd))
    as (st' & Hrun & _ & Hho & Hpr & _).
  exists st'. split; [exact Hrun|]. split; [exact Hho|exact Hpr].
Defined.

Lemma highlight_then_clear_witness :
  exists n st1,
    VoxelHighlighter.highlight_voxels VoxelHighlighter.default_scheme
      [VoxelHighlighter.Id "v_M1_00002"] VoxelHighlighter.sample_state
    = (VoxelHighlighter.Returned n, st1) /\
    VoxelHighlighter.scene (VoxelHighlighter.clear_all st1)
    = [{| VoxelHighlighter.guid_of := 1;
          VoxelHighlighter.voxel_id_of := Some "v_M1_00001";
          VoxelHighlighter.color_of := (0, 0, 0) |};
       {| VoxelHighlighter.guid_of := 2;
          VoxelHighlighter.voxel_id_of := None;
          VoxelHighlighter.color_of := (0, 0, 0) |};
       {| VoxelHighlighter.guid_of := 3;
          VoxelHighlighter.voxel_id_of := Some "v_M1_00002";
          VoxelHighlighter.color_of := (200, 200, 200) |}] /\
    VoxelHighlighter.highlighted_objects (VoxelHighlighter.clear_all st1) = [].
Proof.
  exact (highlight_then_clear VoxelHighlighter.default_scheme
           [VoxelHighlighter.Id "v_M1_00002"] VoxelHighlighter.sample_state
           (or_introl default_scheme_has_default)).
Defined.

Lemma missing_voxel_id_key_witness :
  VoxelHighlighter.highlight_voxels VoxelHighlighter.default_scheme
    [VoxelHighlighter.Dict [("overall_risk_level", "Low")]]
    VoxelHighlighter.sample_state
  = (VoxelHighlighter.Returned 1,
     {| VoxelHighlighter.scene :=
          [{| VoxelHighlighter.guid_of := 1;
              VoxelHighlighter.voxel_id_of := Some "v_M1_00001";
              VoxelHighlighter.color_of := (0, 0, 0) |};
           {| VoxelHighlighter.guid_of := 2;
              VoxelHighlighter.voxel_id_of := None;
              VoxelHighlighter.color_of := (0, 255, 0) |};
           {| VoxelHighlighter.guid_of := 3;
              VoxelHighlighter.voxel_id_of := Some "v_M1_00002";
              VoxelHighlighter.color_of := (0, 0, 0) |}];
        VoxelHighlighter.highlighted_objects := [2];
        VoxelHighlighter.printed := [] |}).
Proof.
  apply (missing_voxel_id_key VoxelHighlighter.default_scheme
           [("overall_risk_level", "Low")] VoxelHighlighter.sample_state
           [{| VoxelHighlighter.guid_of := 1;
               VoxelHighlighter.voxel_id_of := Some "v_M1_00001";
               VoxelHighlighter.color_of := (0, 0, 0) |}]
           [{| VoxelHighlighter.guid_of := 3;
               VoxelHighlighter.voxel_id_of := Some "v_M1_00002";
               VoxelHighlighter.color_of := (0, 0, 0) |}]
           {| VoxelHighlighter.guid_of := 2;
              VoxelHighlighter.voxel_id_of := None;
              VoxelHighlighter.color_of := (0, 0, 0) |}
           (100, 100, 100)).
  - reflexivity.
  - reflexivity.
  - reflexivity.
  - reflexivity.
  - intros o [<-|[]]. discriminate.
Defined.

(** ** Counting the relationships *)

Section Counting.

Context {num : Type} `{PyFloat num}.

Lemma inner_appended_shift (i : nat) (voxel : Voxel num) (others : list (Voxel num)) :
  forall j, inner_appended (S i) voxel (S j) others = inner_appended i voxel j others.
Proof.
  induction others as [|other rest IH]; intros j; cbn [inner_appended]; [reflexivity|].
  rewrite IH. reflexivity.
Qed.

Lemma inner_appended_before (i : nat) (voxel : Voxel num) (others : list (Voxel num)) :
  forall j, i < j ->
    List.length (inner_appended i voxel j others)
    = List.length (filter (accepts voxel) others).
Proof.
  induction others as [|other rest IH]; intros j Hij; cbn [inner_appended filter];
    [reflexivity|].
  destruct (Nat.eqb_spec i j) as [->|_]; [lia|].
  rewrite length_app, (IH (S j)) by lia. unfold accepts.
  destruct (fle (voxel_distance voxel other) ADJACENCY_THRESHOLD); reflexivity.
Qed.

Lemma outer_appended_cons (v : Voxel num) (all_voxels voxels : list (Voxel num)) :
  forall i,
    List.length (outer_appended (v :: all_voxels) (S i) voxels)
    = List.length (filter (fun w => accepts w v) voxels)
      + List.length (outer_appended all_voxels i voxels).
Proof.
  induction voxels as [|w rest IH]; intros i; cbn [outer_appended filter];
    [reflexivity|].
  rewrite !length_app, IH. cbn [inner_appended]. rewrite length_app.
  rewrite inner_appended_shift. cbn [Nat.eqb]. unfold accepts.
  destruct (fle (voxel_distance w v) ADJACENCY_THRESHOLD); cbn [List.length]; lia.
Qed.

(** Registering one more voxel in front adds the edges it accepts and the
    edges that accept it. *)
Lemma neighbors_of_cons_length (v : Voxel num) (all_voxels : list (Voxel num)) :
  List.length (neighbors_of (v :: all_voxels))
  = List.length (filter (accepts v) all_voxels)
    + List.length (filter (fun w => accepts w v) all_voxels)
    + List.length (neighbors_of all_voxels).
Proof.
  unfold neighbors_of. rewrite !outer_loop_appends. cbn [app outer_appended].
  rewrite length_app, outer_appended_cons.
  cbn [inner_appended Nat.eqb app]. rewrite inner_appended_before by lia. lia.
Qed.

End Counting.

Section CountingBinary64.

Import Binary64.

Context {libm : Libm}.

(** On binary64, whatever libm's [pow] returns, the relationships of a
    run that returns come in pairs: their number is even. *)
Theorem relationships_even (all_voxels : list (Voxel float)) (rels : list (PyDict float)) :
  neighbors_or_raise all_voxels = Some rels ->
  exists pairs : nat, List.length rels = 2 * pairs.
Proof.
  intros Hrun. apply neighbors_or_raise_Some in Hrun. destruct Hrun as [_ ->].
  induction all_voxels as [|v rest [pairs IH]].
  - exists 0. reflexivity.
  - exists (List.length (filter (accepts v) rest) + pairs).
    rewrite neighbors_of_cons_length, IH.
    rewrite (filter_ext (fun w => accepts w v) (accepts v))
      by (intros w; apply accepts_sym).
    lia.
Qed.

End CountingBinary64.

Lemma relationships_even_witness :
  exists pairs : nat,
    List.length [Scenarios.edge "A" "B" "east" 1; Scenarios.edge "B" "A" "west" 1]
    = 2 * pairs.
Proof.
  apply (relationships_even Scenarios.scenario_1). vm_compute. reflexivity.
Defined.

(** ** The order of the relationships *)

Section Order.

Context {num : Type} `{PyFloat num}.

Lemma inner_appended_from (i : nat) (voxel : Voxel num) (j : nat) (others : list (Voxel num)) :
  Forall (fun r => dict_get r "from_voxel" = Some (PStr (voxel_id voxel)) /\
                   exists other, In other others /\ r = relationship voxel other)
         (inner_appended i voxel j others).
Proof.
  apply Forall_forall. intros r Hr. apply in_inner_appended in Hr.
  destruct Hr as (k & other & Hk & _ & _ & ->).
  split; [reflexivity|]. exists other. eauto using nth_error_In.
Qed.

Lemma outer_appended_groups (all_voxels voxels : list (Voxel num)) :
  forall i,
  exists groups,
    outer_appended all_voxels i voxels = List.concat groups /\
    Forall2 (fun voxel group =>
               Forall (fun r => dict_get r "from_voxel" = Some (PStr (voxel_id voxel)) /\
                                exists other, In other all_voxels /\
                                              r = relationship voxel other) group)
            voxels groups.
Proof.
  induction voxels as [|voxel rest IH]; intros i; cbn [outer_appended].
  - exists []. split; [reflexivity|constructor].
  - destruct (IH (S i)) as (groups & Hcat & Hall).
    exists (inner_appended i voxel 0 all_voxels :: groups).
    split; [cbn [List.concat]; now rewrite Hcat|].
    constructor; [apply inner_appended_from|exact Hall].
Qed.

(** The relationships are written voxel by voxel in the order of
    registration: the list is the concatenation of one group per
    registered voxel, in that order, each group holding edges from that
    voxel only. *)
Theorem relationships_grouped (all_voxels : list (Voxel num)) :
  exists groups,
    neighbors_of all_voxels = List.concat groups /\
    Forall2 (fun voxel group =>
               Forall (fun r => dict_get r "from_voxel" = Some (PStr (voxel_id voxel)) /\
                                exists other, In other all_voxels /\
                                              r = relationship voxel other) group)
            all_voxels groups.
Proof.
  unfold neighbors_of. rewrite outer_loop_appends. cbn [app].
  apply outer_appended_groups.
Qed.

End Order.

(** ** When a run aborts *)

Section Aborting.

Context {num : Type} `{PyFloat num}.


End Aborting.
